(** * RFD automation: a shallow embedding of [RFD_script.py]

    The development follows the script section by section: the text helpers
    ([process_declaration_period], [sanitize_filename]), the eligibility scan,
    the per-row document creation, the end-of-batch cleanup, and the batch
    loop that ties them together.

    Python text is modelled by [string] (code points 0..255); the tables of
    [str.isalnum] and [str.isspace] are written out for that range. *)

From Stdlib Require Import ZArith List Bool Lia.
From Stdlib Require Import Ascii String DecimalString.
From Stdlib Require Import PrimFloat.
From Stdlib Require Import DecimalPos DecimalZ Sorted.
Import ListNotations.

Open Scope string_scope.
Open Scope Z_scope.

(* ===================================================================== *)
(** ** Python values and exceptions *)

(** What [xlwings] hands back for a cell: [None] for an empty cell, a float
    for a number, a [str] for text, a [bool], or a [datetime] for a date
    cell (kept by its textual form). *)
Inductive value : Type :=
| VNone
| VStr (s : string)
| VFloat (f : float)
| VBool (b : bool)
| VDate (text : string).

Inductive exn_class : Type :=
| IndexError | ValueError | TypeError | AttributeError | OSError | EngineError.

Record exn : Type := Exn { exn_cls : exn_class; exn_msg : string }.

(** A computation either returns or raises. *)
Inductive result (A : Type) : Type :=
| Ok (a : A)
| Raise (e : exn).
Arguments Ok {A} a.
Arguments Raise {A} e.

Definition bind {A B : Type} (r : result A) (k : A -> result B) : result B :=
  match r with
  | Ok a => k a
  | Raise e => Raise e
  end.

Notation "x <- r ;; k" := (bind r (fun x => k))
  (at level 61, r at next level, right associativity).

(** [try: ... except (IndexError, ValueError)]: only the listed classes are
    handled, anything else keeps propagating. *)
Definition caught_by (classes : list exn_class) (e : exn) : bool :=
  existsb (fun c => match c, exn_cls e with
                    | IndexError, IndexError | ValueError, ValueError
                    | TypeError, TypeError | AttributeError, AttributeError
                    | OSError, OSError | EngineError, EngineError => true
                    | _, _ => false
                    end) classes.

Definition try_except {A : Type} (body : result A) (classes : list exn_class)
    (handler : exn -> result A) : result A :=
  match body with
  | Ok a => Ok a
  | Raise e => if caught_by classes e then handler e else Raise e
  end.

Definition is_raise {A : Type} (r : result A) : bool :=
  match r with Ok _ => false | Raise _ => true end.

(** Truth value of a cell, as [if x:] / [not x] read it. *)
Definition truthy (v : value) : bool :=
  match v with
  | VNone => false
  | VStr s => negb (s =? EmptyString)%string
  | VFloat f => negb (PrimFloat.eqb f 0%float)
  | VBool b => b
  | VDate _ => true
  end.

(* ===================================================================== *)
(** ** Text primitives of Python's [str] *)

Module PyStr.

Definition code (c : ascii) : N := N_of_ascii c.

(** [c.isspace()] *)
Definition isspace (c : ascii) : bool :=
  let n := code c in
  ((9 <=? n) && (n <=? 13) || (28 <=? n) && (n <=? 32)
   || (n =? 133) || (n =? 160))%N.

(** [c.isalnum()] *)
Definition isalnum (c : ascii) : bool :=
  let n := code c in
  ((48 <=? n) && (n <=? 57) || (65 <=? n) && (n <=? 90)
   || (97 <=? n) && (n <=? 122)
   || (n =? 170) || (n =? 178) || (n =? 179) || (n =? 181)
   || (n =? 185) || (n =? 186) || (188 <=? n) && (n <=? 190)
   || (192 <=? n) && (n <=? 214) || (216 <=? n) && (n <=? 246)
   || (248 <=? n) && (n <=? 255))%N.

Fixpoint filter (p : ascii -> bool) (s : string) : string :=
  match s with
  | EmptyString => EmptyString
  | String c s' => if p c then String c (filter p s') else filter p s'
  end.

Fixpoint all (p : ascii -> bool) (s : string) : bool :=
  match s with
  | EmptyString => true
  | String c s' => p c && all p s'
  end.

(** [s.lstrip()] *)
Fixpoint lstrip (s : string) : string :=
  match s with
  | EmptyString => EmptyString
  | String c s' => if isspace c then lstrip s' else s
  end.

(** [s.rstrip()]: a character goes when it is blank and so is all that
    follows it. *)
Fixpoint rstrip (s : string) : string :=
  match s with
  | EmptyString => EmptyString
  | String c s' =>
      match rstrip s' with
      | EmptyString => if isspace c then EmptyString else String c EmptyString
      | r => String c r
      end
  end.

(** [s.strip()] *)
Definition strip (s : string) : string := rstrip (lstrip s).

(** [s.split()] with no argument: the maximal runs of non-blank
    characters. [cur] is the run being read, reversed. *)
Fixpoint rev_string (acc : string) (s : string) : string :=
  match s with
  | EmptyString => acc
  | String c s' => rev_string (String c acc) s'
  end.

Definition flush (cur : string) (rest : list string) : list string :=
  match cur with
  | EmptyString => rest
  | _ => rev_string EmptyString cur :: rest
  end.

Fixpoint split_ws_aux (cur : string) (s : string) : list string :=
  match s with
  | EmptyString => flush cur []
  | String c s' =>
      if isspace c then flush cur (split_ws_aux EmptyString s')
      else split_ws_aux (String c cur) s'
  end.

Definition split_ws (s : string) : list string := split_ws_aux EmptyString s.

(** [s.split(sep)] for a non-empty [sep]: pieces between the
    non-overlapping occurrences of [sep], scanned left to right. [skip]
    counts the characters of a matched separator still to be passed. *)
Fixpoint split_aux (sep : string) (skip : nat) (cur : string) (s : string)
    : list string :=
  match s with
  | EmptyString => [rev_string EmptyString cur]
  | String c s' =>
      match skip with
      | S k => split_aux sep k cur s'
      | O =>
          if prefix sep s
          then rev_string EmptyString cur
               :: split_aux sep (Nat.pred (length sep)) EmptyString s'
          else split_aux sep O (String c cur) s'
      end
  end.

Definition split (sep s : string) : list string :=
  split_aux sep O EmptyString s.

(** [str(n)] for an [int] *)
Definition of_int (n : Z) : string := NilZero.string_of_int (Z.to_int n).

(** [xs.index(x)]: position of the first occurrence, [ValueError] when
    there is none. *)
Fixpoint index_from (i : Z) (x : string) (xs : list string) : result Z :=
  match xs with
  | [] => Raise (Exn ValueError (x ++ " is not in list"))
  | y :: ys => if (y =? x)%string then Ok i else index_from (i + 1) x ys
  end.

Definition index (xs : list string) (x : string) : result Z :=
  index_from 0 x xs.

(** [xs[i]] for a non-negative literal [i]: [IndexError] out of range. *)
Definition item (xs : list string) (i : nat) : result string :=
  match nth_error xs i with
  | Some x => Ok x
  | None => Raise (Exn IndexError "list index out of range")
  end.

End PyStr.

(** [list(calendar.month_abbr)] (English locale): index 0 is the empty
    string, so that January sits at index 1. *)
Definition month_abbr : list string :=
  [EmptyString; "Jan"; "Feb"; "Mar"; "Apr"; "May"; "Jun";
   "Jul"; "Aug"; "Sep"; "Oct"; "Nov"; "Dec"].

(** Name of a value's class, as exception messages print it. *)
Definition type_name (v : value) : string :=
  match v with
  | VNone => "NoneType"
  | VStr _ => "str"
  | VFloat _ => "float"
  | VBool _ => "bool"
  | VDate _ => "datetime.datetime"
  end.

Section Script.

Set Default Proof Using "Type".

(** Python's own float routines, taken as they are: [str(x)] and
    [round(x, 1)] on a float, and [float(s)] on text ([None] is the
    [ValueError] of an unparsable text). *)
Variable float_repr : float -> string.
Variable round1 : float -> float.
Variable float_of_text : string -> option float.

(** [str(v)] *)
Definition py_str (v : value) : string :=
  match v with
  | VNone => "None"
  | VStr s => s
  | VFloat f => float_repr f
  | VBool true => "True"
  | VBool false => "False"
  | VDate text => text
  end.

(* ===================================================================== *)
(** ** Section 2 of the script: data processing *)

(** The body of the [try] in [process_declaration_period]. Only text has
    a [split] method; on any other value the attribute lookup raises. *)
Definition period_body (declaration_period : value) : result value :=
  match declaration_period with
  | VStr s =>
      let parts := PyStr.split " to " s in
      p0 <- PyStr.item parts 0 ;;
      let start_month := PyStr.strip p0 in
      p1 <- PyStr.item parts 1 ;;
      w0 <- PyStr.item (PyStr.split_ws p1) 0 ;;
      let end_month := PyStr.strip w0 in
      start_month_num <- PyStr.index month_abbr start_month ;;
      end_month_num <- PyStr.index month_abbr end_month ;;
      let num_months := end_month_num - start_month_num + 1 in
      Ok (VStr (PyStr.of_int num_months ++ " months - " ++ s))
  | _ =>
      Raise (Exn AttributeError
               ("'" ++ type_name declaration_period
                ++ "' object has no attribute 'split'"))
  end.

Definition process_declaration_period (declaration_period : value)
    : result value :=
  try_except (period_body declaration_period) [IndexError; ValueError]
    (fun _ => Ok declaration_period).

(** [sanitize_filename] *)
Definition safe_char (c : ascii) : bool :=
  PyStr.isalnum c || Ascii.eqb c " " || Ascii.eqb c "-" || Ascii.eqb c "_".

Definition sanitize_filename (s : value) : string :=
  PyStr.rstrip (PyStr.filter safe_char (py_str s)).

Definition nonblank (c : ascii) : bool := negb (PyStr.isspace c).

(* ===================================================================== *)
(** ** The source worksheet and the eligibility scan *)

(** The sheet 'RFAS GHG Saving Calculation' as the scan and the extraction
    read it: the value of each cell, and the row that
    [ws.range('A1').end('down')] lands on. *)
Record worksheet : Type := Worksheet {
  ws_cell : string -> Z -> value;
  ws_end_down_A1 : Z
}.

(** [range(lo, hi)] *)
Definition py_range (lo hi : Z) : list Z :=
  map (fun i => lo + Z.of_nat i) (seq 0 (Z.to_nat (hi - lo))).

(** [float(v)] *)
Definition py_float (v : value) : result float :=
  match v with
  | VFloat f => Ok f
  | VBool b => Ok (if b then 1%float else 0%float)
  | VStr s =>
      match float_of_text s with
      | Some f => Ok f
      | None => Raise (Exn ValueError
                         ("could not convert string to float: '" ++ s ++ "'"))
      end
  | VNone | VDate _ =>
      Raise (Exn TypeError
               ("float() argument must be a string or a real number, not '"
                ++ type_name v ++ "'"))
  end.

(** The literal [0.01] of the script, as the binary64 number it denotes. *)
Definition one_percent : float := 0x1.47ae147ae147bp-7%float.

(** One turn of the scanning loop: [rows_to_process] after row [row_num],
    or the exception that leaves the loop. *)
Definition scan_row (ws : worksheet) (rows_to_process : list Z) (row_num : Z)
    : result (list Z) :=
  let ff_blend_value := ws_cell ws "E" row_num in
  let customer_name := ws_cell ws "A" row_num in
  match ff_blend_value with
  | VNone => Ok rows_to_process
  | _ =>
      match py_float ff_blend_value with
      | Raise e =>
          if caught_by [ValueError] e then Ok rows_to_process (* continue *)
          else Raise e
      | Ok ff_blend_float =>
          if PrimFloat.leb one_percent ff_blend_float && truthy customer_name
          then Ok (rows_to_process ++ [row_num])%list
          else Ok rows_to_process
      end
  end.

Fixpoint scan_loop (ws : worksheet) (rows_to_process : list Z)
    (todo : list Z) : result (list Z) :=
  match todo with
  | [] => Ok rows_to_process
  | row_num :: todo' =>
      acc <- scan_row ws rows_to_process row_num ;;
      scan_loop ws acc todo'
  end.

(** Step 1 and 2 of [process_all_supply_blend_rows]. *)
Definition scan_rows (ws : worksheet) : result (list Z) :=
  let last_row := ws_end_down_A1 ws in
  scan_loop ws [] (py_range 2 (last_row + 1)).

(** The test of the scanning loop on one row: the fraction cell converts to
    a float of at least one percent, and the name cell reads as true. *)
Definition eligible (ws : worksheet) (row_num : Z) : bool :=
  match py_float (ws_cell ws "E" row_num) with
  | Ok ff_blend_float =>
      PrimFloat.leb one_percent ff_blend_float
      && truthy (ws_cell ws "A" row_num)
  | Raise _ => false
  end.

(* ===================================================================== *)
(** ** Section 1 of the script: data extraction *)

Record row_data : Type := RowData {
  customer_name : value;
  customer_address : value;
  volume_of_fuel_supplied : value;
  renewable_percentage : value;
  ghg_emissions_intensity : value;
  declaration_number : value;
  certificate_number : value;
  declaration_period : value;
  date_dec_issued : value;
  production_process : value;
  country_of_production : value;
  distribution_of_fuel : value;
  feedstock : value;
  country_of_origin : value;
  traceability_from_origin : value;
  sc_voluntary_sustain_scheme : value
}.

(** [datetime.now().strftime('%d/%m/%Y')] at the time of the call. *)
Variable today : string.

(** The dictionary built by [extract_row_data]: one cell of the row per
    field, read from the sheet as it stands, and the date of the day. *)

Definition row_values (source_file : worksheet) (row_number : Z)
    : row_data :=
  let ws := ws_cell source_file in
  {| customer_name := ws "B" row_number;
     customer_address := ws "N" row_number;
     volume_of_fuel_supplied := ws "D" row_number;
     renewable_percentage := ws "F" row_number;
     ghg_emissions_intensity := ws "I" row_number;
     declaration_number := ws "M" row_number;
     certificate_number := ws "K" row_number;
     declaration_period := ws "O" row_number;
     date_dec_issued := VStr today;
     production_process := ws "Q" row_number;
     country_of_production := ws "R" row_number;
     distribution_of_fuel := ws "S" row_number;
     feedstock := ws "T" row_number;
     country_of_origin := ws "U" row_number;
     traceability_from_origin := ws "V" row_number;
     sc_voluntary_sustain_scheme := ws "W" row_number |}.

(* ===================================================================== *)
(** ** The outside world: spreadsheet engine, file system, console *)

(** Calls that leave the script. A workbook call carries the path its
    workbook was opened from. *)
Inductive call : Type :=
| OpenSource                                 (* xw.App, xw.Book(source_file), its sheet *)
| CloseSource                                (* wb.close() on the source workbook *)
| CopyTemplate (template temp : string)      (* shutil.copy2 *)
| OpenBook (book : string)                   (* xw.App, xw.Book, sheets.active *)
| WriteCell (book addr : string) (v : value) (* ws[addr].value = v *)
| ExportPdf (book pdf : string)              (* wb.api.ExportAsFixedFormat(0, pdf) *)
| SaveAs (book out : string)                 (* wb.save_as(out) *)
| Save (book : string)                       (* wb.save() *)
| CloseBook (book : string)                  (* wb.close() *)
| Remove (path : string).                    (* os.remove *)

(** Console lines, kept as structured messages: those that mark the progress
    of the batch, and every line of the cleaner. *)
Inductive message : Type :=
| ProcessingRow (row : Z)
| RowProcessed (row : Z)
| RowSkipped (row : Z)
| RowError (row : Z) (msg : string)
| NoTempFiles
| Attempting (n : Z)
| Deleted (path : string)
| AttemptFailed (attempt : Z) (path : string) (msg : string)
| CouldNotDelete (path : string).

Inductive event : Type :=
| Called (c : call) (raised : option exn)
| Exists (path : string) (answer : bool)     (* os.path.exists *)
| Slept (seconds : Z)                        (* time.sleep *)
| Printed (m : message).

(** The world decides, from all that happened so far, whether a call raises
    and what [os.path.exists] answers. *)
Variable engine : list event -> call -> option exn.
Variable path_exists : list event -> string -> bool.

(** Computations that act on the world: the log of events is threaded
    through, and survives a raised exception. *)
Definition M (A : Type) : Type := list event -> list event * result A.

Definition ret {A : Type} (a : A) : M A := fun log => (log, Ok a).

Definition bindM {A B : Type} (m : M A) (k : A -> M B) : M B :=
  fun log =>
    match m log with
    | (log', Ok a) => k a log'
    | (log', Raise e) => (log', Raise e)
    end.

Notation "x <~ m ;; k" := (bindM m (fun x => k))
  (at level 61, m at next level, right associativity).

Definition lift {A : Type} (r : result A) : M A := fun log => (log, r).

Definition do_call (c : call) : M unit :=
  fun log =>
    let r := engine log c in
    ((log ++ [Called c r])%list,
     match r with None => Ok tt | Some e => Raise e end).

Definition say (m : message) : M unit :=
  fun log => ((log ++ [Printed m])%list, Ok tt).

(** [try: m except Exception as e: h e] *)
Definition catch {A : Type} (m : M A) (h : exn -> M A) : M A :=
  fun log =>
    match m log with
    | (log', Raise e) => h e log'
    | (log', Ok a) => (log', Ok a)
    end.

(** [os.path.join(folder, name)] for a [name] that is a plain file name:
    the folder, the separator the platform puts after it (none when the
    folder is empty or ends with one), the name. *)
Variable path_sep : string -> string.

Definition os_path_join (folder name : string) : string :=
  folder ++ path_sep folder ++ name.

(** [extract_row_data]: start Excel and open the source workbook, read the
    cells of the row, close the workbook. Nothing here is handled: what a
    call raises leaves the function. *)
Definition extract_row_data (source_file : worksheet) (row_number : Z)
    : M row_data :=
  _ <~ do_call OpenSource ;;
  let row_data := row_values source_file row_number in
  _ <~ do_call CloseSource ;;
  ret row_data.

(* ===================================================================== *)
(** ** Section 3 of the script: one declaration per row *)

(** [f"{round(v, 1)} kg"] *)
Definition rounded_kg (v : value) : result string :=
  match v with
  | VFloat f => Ok (float_repr (round1 f) ++ " kg")
  | VBool b => Ok ((if b then "1" else "0") ++ " kg")
  | VNone | VStr _ | VDate _ =>
      Raise (Exn TypeError
               ("type " ++ type_name v ++ " doesn't define __round__ method"))
  end.

Definition temp_name (row_number : Z) (row : row_data) : string :=
  "temp_" ++ PyStr.of_int row_number ++ "_Renewable_Fuel_Declaration - "
  ++ sanitize_filename (customer_name row) ++ ".xlsm".

Definition output_name (row : row_data) (ext : string) : string :=
  "Renewable_Fuel_Declaration - "
  ++ sanitize_filename (certificate_number row) ++ " - "
  ++ sanitize_filename (declaration_period row) ++ " - "
  ++ sanitize_filename (customer_name row) ++ ext.

Definition temp_excel_file (output_folder : string) (row_number : Z)
    (row : row_data) : string :=
  os_path_join output_folder (temp_name row_number row).

Definition pdf_output_file (output_folder : string) (row : row_data) : string :=
  os_path_join output_folder (output_name row ".pdf").

Definition excel_output_file (output_folder : string) (row : row_data)
    : string :=
  os_path_join output_folder (output_name row ".xlsm").

(** Steps 7 and 8: open the temporary copy and build [update_data]. *)
Definition open_and_prepare (book : string) (row : row_data)
    (total_dec_period : value) : M (list (string * value)) :=
  _ <~ do_call (OpenBook book) ;;
  kg <~ lift (rounded_kg (volume_of_fuel_supplied row)) ;;
  ret [ ("D5", customer_name row);
        ("Q5", customer_address row);
        ("D8", declaration_number row);
        ("Q7", total_dec_period);
        ("Q8", date_dec_issued row);
        ("D12", renewable_percentage row);
        ("D13", VStr kg);
        ("U11", ghg_emissions_intensity row);
        ("D15", production_process row);
        ("D17", country_of_production row);
        ("D19", distribution_of_fuel row);
        ("D26", feedstock row);
        ("D29", country_of_origin row);
        ("D32", traceability_from_origin row);
        ("D34", sc_voluntary_sustain_scheme row) ].

(** Step 9: the loop over [update_data]. *)
Fixpoint write_cells (book : string) (update_data : list (string * value))
    : M unit :=
  match update_data with
  | [] => ret tt
  | (cell_address, v) :: rest =>
      _ <~ do_call (WriteCell book cell_address v) ;;
      write_cells book rest
  end.

(** Steps 7 to 9: everything written into the copy before any export. *)
Definition fill_template (book : string) (row : row_data)
    (total_dec_period : value) : M unit :=
  update_data <~ open_and_prepare book row total_dec_period ;;
  write_cells book update_data.

(** Step 10, with its own [try]: the value of [pdf_created_successfully]. *)
Definition export_pdf (book pdf : string) (save_as_pdf : bool) : M bool :=
  if save_as_pdf
  then catch (_ <~ do_call (ExportPdf book pdf) ;; ret true)
             (fun _ => ret false)
  else ret false.

(** Step 11 *)
Definition save_excel (book excel : string) (save_as_pdf keep_excel : bool)
    (pdf_created_successfully : bool) : M unit :=
  if keep_excel || (save_as_pdf && negb pdf_created_successfully)
  then if keep_excel then do_call (SaveAs book excel) else do_call (Save book)
  else ret tt.

(** The body of the outer [try]: steps 7 to 12. *)
Definition fill_and_export (book pdf excel : string) (row : row_data)
    (total_dec_period : value) (save_as_pdf keep_excel : bool) : M bool :=
  _ <~ fill_template book row total_dec_period ;;
  pdf_created_successfully <~ export_pdf book pdf save_as_pdf ;;
  _ <~ save_excel book excel save_as_pdf keep_excel pdf_created_successfully ;;
  _ <~ do_call (CloseBook book) ;;
  ret pdf_created_successfully.

(** Step 13: [temp_files_list] after the row. *)
Definition register_temp (temp_files_list : option (list string))
    (save_as_pdf keep_excel pdf_created_successfully : bool) (temp : string)
    : option (list string) :=
  match temp_files_list with
  | Some l =>
      if save_as_pdf && pdf_created_successfully && negb keep_excel
      then Some (l ++ [temp])%list
      else Some l
  | None => None
  end.

(** [create_declaration_for_row]: the returned path ([None] for a skipped
    row) and the caller's list of temporary files as the call leaves it. *)
Definition create_declaration_for_row (source_file : worksheet)
    (template_file : string) (row_number : Z) (output_folder : string)
    (save_as_pdf keep_excel : bool) (temp_files_list : option (list string))
    : M (option string * option (list string)) :=
  _ <~ say (ProcessingRow row_number) ;;
  row <~ extract_row_data source_file row_number ;;
  if negb (truthy (customer_name row)) then ret (None, temp_files_list)
  else
    total_dec_period <~ lift (process_declaration_period (declaration_period row)) ;;
    let temp := temp_excel_file output_folder row_number row in
    let pdf := pdf_output_file output_folder row in
    let excel := excel_output_file output_folder row in
    _ <~ do_call (CopyTemplate template_file temp) ;;
    pdf_created_successfully <~
      catch (fill_and_export temp pdf excel row total_dec_period
               save_as_pdf keep_excel)
            (fun _ => ret false) ;;
    ret (Some (if save_as_pdf && pdf_created_successfully then pdf else excel),
         register_temp temp_files_list save_as_pdf keep_excel
           pdf_created_successfully temp).

(* ===================================================================== *)
(** ** Section 5 of the script: cleanup of temporary files *)

Definition ask_exists (path : string) : M bool :=
  fun log =>
    let present := path_exists log path in
    ((log ++ [Exists path present])%list, Ok present).

Definition sleep (seconds : Z) : M unit :=
  fun log => ((log ++ [Slept seconds])%list, Ok tt).

(** One turn of [for attempt in range(5)]: [true] when the turn ends in
    [break], [false] when the handler ran. *)
Definition delete_attempt (attempt : Z) (temp_file : string) : M bool :=
  catch
    (present <~ ask_exists temp_file ;;
     _ <~ (if present
           then _ <~ do_call (Remove temp_file) ;; say (Deleted temp_file)
           else ret tt) ;;
     ret true)
    (fun e =>
       _ <~ say (AttemptFailed (attempt + 1) temp_file (exn_msg e)) ;;
       _ <~ sleep 1 ;;
       ret false).

(** The loop on one file with [n] turns left, [attempt] being the loop
    variable; running out of turns is the [else] branch of the loop. *)
Fixpoint delete_attempts (n : nat) (attempt : Z) (temp_file : string)
    : M unit :=
  match n with
  | O => say (CouldNotDelete temp_file)
  | S n' =>
      done <~ delete_attempt attempt temp_file ;;
      if done then ret tt else delete_attempts n' (attempt + 1) temp_file
  end.

Fixpoint cleanup_loop (temp_files : list string) : M unit :=
  match temp_files with
  | [] => ret tt
  | temp_file :: rest =>
      _ <~ delete_attempts 5 0 temp_file ;;
      cleanup_loop rest
  end.

(** [cleanup_temp_files] *)
Definition cleanup_temp_files (temp_files_list : option (list string))
    : M unit :=
  match temp_files_list with
  | None | Some [] => say NoTempFiles
  | Some l =>
      _ <~ say (Attempting (Z.of_nat (List.length l))) ;;
      cleanup_loop l
  end.

(* ===================================================================== *)
(** ** Section 4 of the script: the batch *)

(** What the final summary is printed from. *)
Record report : Type := Report {
  created_files : list string;
  error_files : list (Z * string);
  temp_files_to_cleanup : list string
}.

(** [if output_file:] *)
Definition path_given (output_file : option string) : bool :=
  match output_file with
  | Some p => negb (p =? EmptyString)%string
  | None => false
  end.

(** One turn of the loop over [rows_to_process], with its [try]. *)
Definition process_row (source_file : worksheet)
    (template_file output_folder : string) (save_as_pdf keep_excel : bool)
    (acc : report) (row_num : Z) : M report :=
  catch
    (out <~ create_declaration_for_row source_file template_file row_num
              output_folder save_as_pdf keep_excel
              (Some (temp_files_to_cleanup acc)) ;;
     let '(output_file, temps) := out in
     let temps' := match temps with
                   | Some l => l
                   | None => temp_files_to_cleanup acc
                   end in
     if path_given output_file
     then
       _ <~ say (RowProcessed row_num) ;;
       ret {| created_files :=
                (created_files acc
                   ++ match output_file with Some p => [p] | None => [] end)%list;
              error_files := error_files acc;
              temp_files_to_cleanup := temps' |}
     else
       _ <~ say (RowSkipped row_num) ;;
       ret {| created_files := created_files acc;
              error_files := error_files acc;
              temp_files_to_cleanup := temps' |})
    (fun e =>
       _ <~ say (RowError row_num (exn_msg e)) ;;
       ret {| created_files := created_files acc;
              error_files := (error_files acc ++ [(row_num, exn_msg e)])%list;
              temp_files_to_cleanup := temp_files_to_cleanup acc |}).

Fixpoint process_rows (source_file : worksheet)
    (template_file output_folder : string) (save_as_pdf keep_excel : bool)
    (acc : report) (rows_to_process : list Z) : M report :=
  match rows_to_process with
  | [] => ret acc
  | row_num :: rest =>
      acc' <~ process_row source_file template_file output_folder
                save_as_pdf keep_excel acc row_num ;;
      process_rows source_file template_file output_folder save_as_pdf
        keep_excel acc' rest
  end.

Definition empty_report : report :=
  {| created_files := []; error_files := []; temp_files_to_cleanup := [] |}.

(** [process_all_supply_blend_rows]: the scan, made on the source workbook
    opened for it and closed after it, then the loop, then the cleanup.
    Nothing handles what the opening, the scan or the closing raises. *)
Definition process_all_supply_blend_rows (source_file : worksheet)
    (template_file output_folder : string) (save_as_pdf keep_excel : bool)
    : M report :=
  _ <~ do_call OpenSource ;;
  rows_to_process <~ lift (scan_rows source_file) ;;
  _ <~ do_call CloseSource ;;
  rep <~ process_rows source_file template_file output_folder save_as_pdf
           keep_excel empty_report rows_to_process ;;
  _ <~ cleanup_temp_files (Some (temp_files_to_cleanup rep)) ;;
  ret rep.

(** The batch loop as the specification words it. The rows are taken in the
    order of the list, each from the log and the lists the row before left.
    A row whose call returns a path adds it to the created files; a row
    whose call returns no path is skipped; either way the list of temporary
    files is the one the call left. A row whose call raises adds an error
    entry with its number and the message, and the loop goes on with the
    next row. *)
Inductive rows_in_order (source_file : worksheet)
    (template_file output_folder : string) (save_as_pdf keep_excel : bool)
    : report -> list event -> list Z -> list event -> report -> Prop :=
| rows_done (acc : report) (log : list event) :
    rows_in_order source_file template_file output_folder save_as_pdf
      keep_excel acc log [] log acc
| row_created (acc : report) (log : list event) (row_num : Z)
    (rest : list Z) (log1 : list event) (p : string) (temps : list string)
    (log' : list event) (rep : report) :
    create_declaration_for_row source_file template_file row_num
      output_folder save_as_pdf keep_excel
      (Some (temp_files_to_cleanup acc)) log
    = (log1, Ok (Some p, Some temps)) ->
    rows_in_order source_file template_file output_folder save_as_pdf
      keep_excel
      {| created_files := (created_files acc ++ [p])%list;
         error_files := error_files acc;
         temp_files_to_cleanup := temps |}
      (log1 ++ [Printed (RowProcessed row_num)])%list rest log' rep ->
    rows_in_order source_file template_file output_folder save_as_pdf
      keep_excel acc log (row_num :: rest) log' rep
| row_passed_over (acc : report) (log : list event) (row_num : Z)
    (rest : list Z) (log1 : list event) (temps : list string)
    (log' : list event) (rep : report) :
    create_declaration_for_row source_file template_file row_num
      output_folder save_as_pdf keep_excel
      (Some (temp_files_to_cleanup acc)) log
    = (log1, Ok (None, Some temps)) ->
    rows_in_order source_file template_file output_folder save_as_pdf
      keep_excel
      {| created_files := created_files acc;
         error_files := error_files acc;
         temp_files_to_cleanup := temps |}
      (log1 ++ [Printed (RowSkipped row_num)])%list rest log' rep ->
    rows_in_order source_file template_file output_folder save_as_pdf
      keep_excel acc log (row_num :: rest) log' rep
| row_failed (acc : report) (log : list event) (row_num : Z)
    (rest : list Z) (log1 : list event) (e : exn)
    (log' : list event) (rep : report) :
    create_declaration_for_row source_file template_file row_num
      output_folder save_as_pdf keep_excel
      (Some (temp_files_to_cleanup acc)) log
    = (log1, Raise e) ->
    rows_in_order source_file template_file output_folder save_as_pdf
      keep_excel
      {| created_files := created_files acc;
         error_files := (error_files acc ++ [(row_num, exn_msg e)])%list;
         temp_files_to_cleanup := temp_files_to_cleanup acc |}
      (log1 ++ [Printed (RowError row_num (exn_msg e))])%list rest log' rep ->
    rows_in_order source_file template_file output_folder save_as_pdf
      keep_excel acc log (row_num :: rest) log' rep.

(* ===================================================================== *)
(** ** Reading a log *)

(** The file a call creates or overwrites when it returns. *)
Definition written_by (ev : event) : list string :=
  match ev with
  | Called (CopyTemplate _ temp) None => [temp]
  | Called (ExportPdf _ pdf) None => [pdf]
  | Called (SaveAs _ out) None => [out]
  | Called (Save book) None => [book]
  | _ => []
  end.

Definition files_written (evs : list event) : list string :=
  flat_map written_by evs.

(** Opening the copy and writing its cells. *)
Definition is_fill_call (ev : event) : bool :=
  match ev with
  | Called (OpenBook _) _ | Called (WriteCell _ _ _) _ => true
  | _ => false
  end.

Definition is_export (ev : event) : bool :=
  match ev with Called (ExportPdf _ _) _ => true | _ => false end.

Definition is_save (ev : event) : bool :=
  match ev with
  | Called (SaveAs _ _) _ | Called (Save _) _ => true
  | _ => false
  end.

Definition is_remove (ev : event) : bool :=
  match ev with Called (Remove _) _ => true | _ => false end.

Definition export_returned (ev : event) : bool :=
  match ev with Called (ExportPdf _ _) None => true | _ => false end.

Definition export_raised (ev : event) : bool :=
  match ev with Called (ExportPdf _ _) (Some _) => true | _ => false end.

Definition close_returned (ev : event) : bool :=
  match ev with Called (CloseBook _) None => true | _ => false end.

(** Where a save call puts its file, whether or not it returns. *)
Definition save_target (ev : event) : list string :=
  match ev with
  | Called (SaveAs _ out) _ => [out]
  | Called (Save book) _ => [book]
  | _ => []
  end.

(** What the cleaner does and says. *)
Definition is_cleaner_event (ev : event) : bool :=
  match ev with
  | Called (Remove _) _ | Exists _ _ | Slept _
  | Printed NoTempFiles | Printed (Attempting _) | Printed (Deleted _)
  | Printed (AttemptFailed _ _ _) | Printed (CouldNotDelete _) => true
  | _ => false
  end.

(** The first line of the cleaner, printed once per call. *)
Definition is_cleaner_start (ev : event) : bool :=
  match ev with
  | Printed NoTempFiles | Printed (Attempting _) => true
  | _ => false
  end.

(** The line that closes a turn of the batch loop, with its row. *)
Definition row_mark (ev : event) : list Z :=
  match ev with
  | Printed (RowProcessed r) | Printed (RowSkipped r)
  | Printed (RowError r _) => [r]
  | _ => []
  end.

Definition row_error (ev : event) : list (Z * string) :=
  match ev with
  | Printed (RowError r msg) => [(r, msg)]
  | _ => []
  end.

(* ===================================================================== *)
(** ** The shape of a cleanup *)

(** An attempt that failed: the file is there, removing it raises, the
    failure is reported, and one second passes. *)
Definition failed_attempt (path : string) (k : Z) (e : exn) : list event :=
  [Exists path true; Called (Remove path) (Some e);
   Printed (AttemptFailed k path (exn_msg e)); Slept 1].

Fixpoint failed_attempts (path : string) (k : Z) (es : list exn)
    : list event :=
  match es with
  | [] => []
  | e :: es' => (failed_attempt path k e ++ failed_attempts path (k + 1) es')%list
  end.

(** What happens to one path within [n] attempts numbered from [k]: fewer
    than [n] failures and then an attempt that finds the file gone or
    removes it, or [n] failures and the report that it could not be
    deleted. *)
Inductive attempts_trace (path : string) (n : nat) (k : Z)
    : list event -> Prop :=
| already_gone (es : list exn) :
    (List.length es < n)%nat ->
    attempts_trace path n k
      (failed_attempts path k es ++ [Exists path false])
| removed (es : list exn) :
    (List.length es < n)%nat ->
    attempts_trace path n k
      (failed_attempts path k es
       ++ [Exists path true; Called (Remove path) None;
           Printed (Deleted path)])
| gave_up (es : list exn) :
    List.length es = n ->
    attempts_trace path n k
      (failed_attempts path k es ++ [Printed (CouldNotDelete path)]).

Definition path_cleanup (path : string) : list event -> Prop :=
  attempts_trace path 5 1.

(** An event that carries an answer of the world carries the answer the
    world gives at the log the question is asked from. *)
Definition answered (log : list event) (ev : event) : Prop :=
  match ev with
  | Called c raised => raised = engine log c
  | Exists path answer => answer = path_exists log path
  | Slept _ | Printed _ => True
  end.

(** [evs], happening from [log] on, is what the world answers: the result
    of every call and every answer of [os.path.exists] in it. *)
Fixpoint world_agrees (log evs : list event) : Prop :=
  match evs with
  | [] => True
  | ev :: rest => answered log ev /\ world_agrees (log ++ [ev])%list rest
  end.

(* ===================================================================== *)
(** ** A sample sheet and sample worlds *)

Definition cell_of (cells : list (string * value)) (col : string) : value :=
  match find (fun kv => (fst kv =? col)%string) cells with
  | Some kv => snd kv
  | None => VNone
  end.

(** Three customers: row 2 is complete, row 3 has no declaration period,
    row 4 has no volume. *)
Definition sample_cells (row : Z) : list (string * value) :=
  match row with
  | 2 => [("A", VStr "Acme"); ("B", VStr "Acme Ltd");
          ("D", VFloat 1200.5%float); ("E", VFloat 0.5%float);
          ("F", VFloat 0.5%float); ("K", VStr "C-100"); ("M", VStr "D-1");
          ("N", VStr "1 High Street"); ("O", VStr "Jan to Mar 2025")]
  | 3 => [("A", VStr "Beta"); ("B", VStr "Beta plc");
          ("D", VFloat 10%float); ("E", VFloat 0.25%float);
          ("K", VStr "C-101"); ("M", VStr "D-2")]
  | 4 => [("A", VStr "Gamma"); ("B", VStr "Gamma & Co");
          ("E", VFloat 0.75%float); ("K", VStr "C-102"); ("M", VStr "D-3");
          ("O", VStr "Apr to Jun 2025")]
  | _ => []
  end.

Definition sample_sheet : worksheet :=
  {| ws_cell := fun col row => cell_of (sample_cells row) col;
     ws_end_down_A1 := 4 |}.

(** The same sheet with a date typed into the fraction cell of row 3. *)
Definition sheet_with_date : worksheet :=
  {| ws_cell := fun col row =>
       if (col =? "E")%string && (row =? 3)
       then VDate "2025-03-31 00:00:00"
       else cell_of (sample_cells row) col;
     ws_end_down_A1 := 4 |}.

(** Worlds: one where every call returns, one where the PDF export raises,
    one where closing a workbook raises, and one where removing a file
    raises; files that stay, and files that are gone once two seconds have
    been slept. *)
Definition world_ok : list event -> call -> option exn :=
  fun _ _ => None.

Definition world_no_pdf : list event -> call -> option exn :=
  fun _ c =>
    match c with
    | ExportPdf _ _ => Some (Exn EngineError "export failed")
    | _ => None
    end.

Definition world_close_fails : list event -> call -> option exn :=
  fun _ c =>
    match c with
    | CloseBook _ => Some (Exn EngineError "workbook is busy")
    | _ => None
    end.

Definition world_locked : list event -> call -> option exn :=
  fun _ c =>
    match c with
    | Remove _ => Some (Exn OSError "file is in use")
    | _ => None
    end.

Definition slept (log : list event) : Z :=
  fold_right (fun ev n => match ev with Slept s => s + n | _ => n end) 0 log.

Definition files_stay : list event -> string -> bool := fun _ _ => true.

Definition files_vanish_after_2s : list event -> string -> bool :=
  fun log _ => slept log <? 2.

(** Stand-ins for Python's float routines; no stated fact depends on how a
    float prints, rounds or parses. *)
Definition sample_repr : float -> string := fun _ => "0.0".
Definition sample_round : float -> float := fun f => f.
Definition sample_parse : string -> option float := fun _ => None.
Definition sample_sep : string -> string := fun _ => "/".

(* ===================================================================== *)
(** ** More readings of a log, and of a file name *)

(** The call, when it is one on the source workbook. *)
Definition source_call (ev : event) : list call :=
  match ev with
  | Called OpenSource _ => [OpenSource]
  | Called CloseSource _ => [CloseSource]
  | _ => []
  end.

(** The workbook a call on a declaration workbook acts on. *)
Definition book_of (ev : event) : list string :=
  match ev with
  | Called (OpenBook b) _ | Called (WriteCell b _ _) _
  | Called (ExportPdf b _) _ | Called (SaveAs b _) _
  | Called (Save b) _ | Called (CloseBook b) _ => [b]
  | _ => []
  end.


(** The row of a turn that ended as skipped. *)
Definition row_skipped (ev : event) : list Z :=
  match ev with Printed (RowSkipped r) => [r] | _ => [] end.

(** An attempt that removes the file. *)
Definition removal (path : string) : list event :=
  [Exists path true; Called (Remove path) None; Printed (Deleted path)].

(** Characters with a meaning in a path or forbidden in a file name:
    the double quote, [*], [.], [/], [:], [<], [>], [?], the backslash
    and [|]. *)
Definition path_special (c : ascii) : bool :=
  existsb (N.eqb (PyStr.code c)) [34; 42; 46; 47; 58; 60; 62; 63; 92; 124]%N.

(** The characters of a decimal numeral. *)
Definition sign_or_digit (c : ascii) : bool :=
  Ascii.eqb c "-" || ((48 <=? PyStr.code c) && (PyStr.code c <=? 57))%N.

(** The calls of a fill that went through: the open, then one write per
    entry of [update_data]. *)
Definition fill_calls (book : string) (update_data : list (string * value))
    : list event :=
  Called (OpenBook book) None
  :: map (fun av => Called (WriteCell book (fst av) (snd av)) None)
       update_data.

(* ===================================================================== *)
(** * Properties *)

(** ** Text helpers *)

(** The text primitives on a few inputs, against what Python gives. *)
Example split_examples :
  PyStr.split " to " "Jan to Mar 2025" = ["Jan"; "Mar 2025"]
  /\ PyStr.split " to " "a to  to b" = ["a"; EmptyString; "b"]
  /\ PyStr.split " to " " to  to " = [EmptyString; EmptyString; EmptyString]
  /\ PyStr.split " to " "x to to to y" = ["x"; "to"; "y"]
  /\ PyStr.split " to " "Jan  to Mar" = ["Jan "; "Mar"]
  /\ PyStr.split " to " "Jan to " = ["Jan"; EmptyString]
  /\ PyStr.split " to " "to" = ["to"].
Proof. repeat split. Qed.

Example blank_examples :
  let tab := String (ascii_of_nat 9) EmptyString in
  let nl := String (ascii_of_nat 10) EmptyString in
  let s := "  a b" ++ tab ++ "c" ++ nl in
  PyStr.split_ws s = ["a"; "b"; "c"]
  /\ PyStr.strip s = "a b" ++ tab ++ "c"
  /\ PyStr.rstrip s = "  a b" ++ tab ++ "c"
  /\ PyStr.lstrip s = "a b" ++ tab ++ "c" ++ nl
  /\ PyStr.split_ws " " = []
  /\ PyStr.strip " " = EmptyString.
Proof. repeat split. Qed.

Lemma all_filter (p : ascii -> bool) (s : string) :
  PyStr.all p (PyStr.filter p s) = true.
Proof.
  induction s as [|c s IH]; simpl; [reflexivity|].
  destruct (p c) eqn:Hc; simpl; [rewrite Hc|]; assumption.
Qed.

Lemma all_app (p : ascii -> bool) (a b : string) :
  PyStr.all p (a ++ b) = PyStr.all p a && PyStr.all p b.
Proof.
  induction a as [|c a IH]; simpl; [reflexivity|].
  rewrite IH. apply andb_assoc.
Qed.

(** [rstrip] cuts a blank suffix off. *)
Lemma rstrip_suffix (s : string) :
  exists t, s = PyStr.rstrip s ++ t /\ PyStr.all PyStr.isspace t = true.
Proof.
  induction s as [|c s [t [Hs Ht]]]; simpl.
  - exists EmptyString. split; reflexivity.
  - destruct (PyStr.rstrip s) as [|d r] eqn:Hr.
    + destruct (PyStr.isspace c) eqn:Hc.
      * exists (String c s). split; [reflexivity|].
        simpl. rewrite Hc. simpl in Hs. subst t. assumption.
      * exists t. simpl. split; [now rewrite Hs at 1|assumption].
    + exists t. simpl. split; [now rewrite Hs at 1|assumption].
Qed.

Lemma rstrip_idempotent (s : string) :
  PyStr.rstrip (PyStr.rstrip s) = PyStr.rstrip s.
Proof.
  induction s as [|c s IH]; simpl; [reflexivity|].
  destruct (PyStr.rstrip s) as [|d r] eqn:Hr.
  - destruct (PyStr.isspace c) eqn:Hc; simpl; [reflexivity|].
    rewrite Hc. reflexivity.
  - change (PyStr.rstrip (String c (String d r)))
      with (match PyStr.rstrip (String d r) with
            | EmptyString =>
                if PyStr.isspace c then EmptyString else String c EmptyString
            | r0 => String c r0
            end).
    rewrite IH. reflexivity.
Qed.

(** Among the characters the sanitizer keeps, the only blank is the space. *)
Lemma safe_blank_is_space (c : ascii) :
  safe_char c = true -> PyStr.isspace c = true -> Ascii.eqb c " " = true.
Proof.
  destruct c as [[] [] [] [] [] [] [] []]; vm_compute; congruence.
Qed.

Lemma index_from_raises (x : string) (xs : list string) (i : Z) (e : exn) :
  PyStr.index_from i x xs = Raise e -> exn_cls e = ValueError.
Proof.
  revert i. induction xs as [|y ys IH]; simpl; intros i H.
  - injection H as <-. reflexivity.
  - destruct (y =? x)%string; [discriminate|]. eauto.
Qed.

Lemma item_raises (xs : list string) (i : nat) (e : exn) :
  PyStr.item xs i = Raise e -> exn_cls e = IndexError.
Proof.
  unfold PyStr.item. destruct (nth_error xs i); [discriminate|].
  intros H. injection H as <-. reflexivity.
Qed.

(** On text, the period formatter always returns. *)
Lemma period_text_never_raises (s : string) :
  exists v, process_declaration_period (VStr s) = Ok v.
Proof.
  unfold process_declaration_period, try_except.
  destruct (period_body (VStr s)) as [v|e] eqn:Hb; [eauto|].
  assert (Hc : exn_cls e = IndexError \/ exn_cls e = ValueError).
  { unfold period_body, bind in Hb.
    repeat match type of Hb with
    | match ?r with Ok _ => _ | Raise _ => _ end = _ =>
        let H := fresh "H" in
        destruct r eqn:H;
        [| injection Hb as <-;
           first [ left; eapply item_raises; eassumption
                 | right; eapply index_from_raises; eassumption ] ]
    end.
    discriminate. }
  exists (VStr s). unfold caught_by. simpl.
  destruct Hc as [-> | ->]; reflexivity.
Qed.

(** Both tokens found in the table: the span is put in front. *)
Lemma period_span (s p0 p1 w : string) (rest ws : list string) (a b : Z) :
  PyStr.split " to " s = p0 :: p1 :: rest ->
  PyStr.split_ws p1 = w :: ws ->
  PyStr.index month_abbr (PyStr.strip p0) = Ok a ->
  PyStr.index month_abbr (PyStr.strip w) = Ok b ->
  process_declaration_period (VStr s)
  = Ok (VStr (PyStr.of_int (b - a + 1) ++ " months - " ++ s)).
Proof.
  intros Hs Hw Ha Hb.
  unfold process_declaration_period, period_body.
  rewrite Hs. simpl. rewrite Hw. simpl. rewrite Ha, Hb. reflexivity.
Qed.

(** The end token is a word of [split()], so it is never empty: only the
    start token can be the empty entry of the table. *)
Lemma rev_string_all (p : ascii -> bool) (s acc : string) :
  PyStr.all p acc = true -> PyStr.all p s = true ->
  PyStr.all p (PyStr.rev_string acc s) = true.
Proof.
  revert acc. induction s as [|c s IH]; simpl; intros acc Ha Hs; [exact Ha|].
  apply andb_true_iff in Hs as [Hc Hs]. apply IH; [|exact Hs].
  simpl. rewrite Hc, Ha. reflexivity.
Qed.

Lemma rev_string_nonempty (s acc : string) :
  s <> EmptyString \/ acc <> EmptyString ->
  PyStr.rev_string acc s <> EmptyString.
Proof.
  revert acc. induction s as [|c s IH]; simpl; intros acc H.
  - destruct H as [H|H]; [congruence|exact H].
  - apply IH. right. discriminate.
Qed.

Lemma flush_words (cur w : string) (rest : list string) :
  PyStr.all nonblank cur = true ->
  In w (PyStr.flush cur rest) ->
  (w <> EmptyString /\ PyStr.all nonblank w = true) \/ In w rest.
Proof.
  intros Hcur Hin. destruct cur as [|d cur]; [right; exact Hin|].
  unfold PyStr.flush in Hin. destruct Hin as [<-|Hin]; [left|right; exact Hin].
  split.
  - apply rev_string_nonempty. left. discriminate.
  - apply rev_string_all; [reflexivity|exact Hcur].
Qed.

Lemma split_ws_aux_words (s cur w : string) :
  PyStr.all nonblank cur = true ->
  In w (PyStr.split_ws_aux cur s) ->
  w <> EmptyString /\ PyStr.all nonblank w = true.
Proof.
  revert cur. induction s as [|c s IH]; intros cur Hcur Hin;
    cbn [PyStr.split_ws_aux] in Hin.
  - apply flush_words in Hin as [H|[]]; [exact H|exact Hcur].
  - destruct (PyStr.isspace c) eqn:Hc.
    + apply flush_words in Hin as [H|Hin]; [exact H| |exact Hcur].
      apply (IH EmptyString); [reflexivity|exact Hin].
    + apply (IH (String c cur)); [|exact Hin].
      simpl. unfold nonblank at 1. rewrite Hc, Hcur. reflexivity.
Qed.

Lemma rstrip_nonblank (w : string) :
  PyStr.all nonblank w = true -> PyStr.rstrip w = w.
Proof.
  induction w as [|c w IH]; simpl; [reflexivity|].
  intros H. apply andb_true_iff in H as [Hc Hw]. rewrite (IH Hw).
  destruct w; [|reflexivity].
  unfold nonblank in Hc.
  destruct (PyStr.isspace c); [discriminate Hc|reflexivity].
Qed.

Lemma end_token_never_empty (p1 w : string) (ws : list string) :
  PyStr.split_ws p1 = w :: ws -> PyStr.strip w <> EmptyString.
Proof.
  intros H.
  destruct (split_ws_aux_words p1 EmptyString w) as [Hne Hnb];
    [reflexivity | unfold PyStr.split_ws in H; rewrite H; left; reflexivity |].
  unfold PyStr.strip.
  assert (Hl : PyStr.lstrip w = w).
  { destruct w as [|c w]; [reflexivity|]. simpl in Hnb |- *.
    apply andb_true_iff in Hnb as [Hc _]. unfold nonblank in Hc.
    destruct (PyStr.isspace c); [discriminate Hc|reflexivity]. }
  rewrite Hl, (rstrip_nonblank w Hnb). exact Hne.
Qed.

Example period_jan_mar :
  process_declaration_period (VStr "Jan to Mar 2025")
  = Ok (VStr "3 months - Jan to Mar 2025").
Proof. reflexivity. Qed.

Example period_xyz :
  process_declaration_period (VStr "Xyz to Mar 2025")
  = Ok (VStr "Xyz to Mar 2025").
Proof. reflexivity. Qed.

Example period_dec_jan :
  process_declaration_period (VStr "Dec to Jan 2025")
  = Ok (VStr "-10 months - Dec to Jan 2025").
Proof. reflexivity. Qed.

Example period_no_separator :
  process_declaration_period (VStr "January 2025") = Ok (VStr "January 2025").
Proof. reflexivity. Qed.

(** C4: the period formatter at the input [" to Mar 2025"]. The start token
    is empty, which is no month abbreviation, yet the input comes back with
    a span in front instead of unchanged; and on an empty cell ([None]) the
    formatter raises, the [AttributeError] not being among the handled
    classes. *)
Theorem period_formatter_empty_start_token :
  process_declaration_period (VStr " to Mar 2025")
  = Ok (VStr "4 months -  to Mar 2025")
  /\ process_declaration_period (VStr " to Mar 2025")
     <> Ok (VStr " to Mar 2025")
  /\ process_declaration_period VNone
     = Raise (Exn AttributeError "'NoneType' object has no attribute 'split'").
Proof.
  split; [reflexivity|]. split; [|reflexivity].
  vm_compute. discriminate.
Qed.

Lemma period_without_end_word (s p0 p1 : string) (rest : list string) :
  PyStr.split " to " s = p0 :: p1 :: rest ->
  PyStr.split_ws p1 = [] ->
  process_declaration_period (VStr s) = Ok (VStr s).
Proof.
  intros Hs Hw. unfold process_declaration_period, period_body.
  rewrite Hs. cbn [PyStr.item nth_error bind]. rewrite Hw. reflexivity.
Qed.

(** C10 (as amended): the table of month abbreviations holds the empty
    string at index 0, so an empty start token is looked up as ordinal 0:
    whenever the start token is empty and the end token is month [e], the
    formatter returns the input with the span [e - 0 + 1] in front. The end
    token is the first word after the separator and is never empty; when
    there is no such word the input comes back unchanged. *)
Theorem empty_token_is_month_zero
    (s p0 p1 : string) (rest : list string) :
  PyStr.split " to " s = p0 :: p1 :: rest ->
  nth_error month_abbr 0 = Some EmptyString
  /\ PyStr.index month_abbr EmptyString = Ok 0
  /\ (forall (w : string) (ws : list string) (e : Z),
        PyStr.strip p0 = EmptyString ->
        PyStr.split_ws p1 = w :: ws ->
        PyStr.index month_abbr (PyStr.strip w) = Ok e ->
        process_declaration_period (VStr s)
        = Ok (VStr (PyStr.of_int (e + 1) ++ " months - " ++ s)))
  /\ (forall (w : string) (ws : list string),
        PyStr.split_ws p1 = w :: ws -> PyStr.strip w <> EmptyString)
  /\ (PyStr.split_ws p1 = [] ->
      process_declaration_period (VStr s) = Ok (VStr s)).
Proof.
  intros Hs.
  split; [reflexivity|]. split; [reflexivity|]. split; [|split].
  - intros w ws e H0 Hw He.
    rewrite (period_span s p0 p1 w rest ws 0 e Hs Hw);
      [|rewrite H0; reflexivity|exact He].
    rewrite Z.sub_0_r. reflexivity.
  - intros w ws Hw. exact (end_token_never_empty p1 w ws Hw).
  - exact (period_without_end_word s p0 p1 rest Hs).
Qed.

(** C5 (as amended): [sanitize_filename] is defined on every value, through
    its textual form; what it returns consists of alphanumeric characters,
    spaces, hyphens and underscores only, is the kept characters of the
    input in their order up to a run of trailing spaces, and has no trailing
    blank. [None] gives ["None"], and ["O'Brien & Sons, Ltd."] gives
    ["OBrien  Sons Ltd"], the space on each side of the ampersand being
    kept. *)
Theorem sanitize_filename_spec (v : value) :
  PyStr.all safe_char (sanitize_filename v) = true
  /\ (exists t,
        PyStr.filter safe_char (py_str v) = sanitize_filename v ++ t
        /\ PyStr.all (fun c => Ascii.eqb c " ") t = true)
  /\ PyStr.rstrip (sanitize_filename v) = sanitize_filename v
  /\ sanitize_filename VNone = "None"
  /\ sanitize_filename (VStr "O'Brien & Sons, Ltd.") = "OBrien  Sons Ltd".
Proof.
  unfold sanitize_filename.
  destruct (rstrip_suffix (PyStr.filter safe_char (py_str v))) as [t [Ht Hb]].
  pose proof (all_filter safe_char (py_str v)) as Hsafe.
  rewrite Ht, all_app in Hsafe. apply andb_true_iff in Hsafe as [Hr Hts].
  repeat split.
  - exact Hr.
  - exists t. split; [exact Ht|].
    clear Ht. induction t as [|c t IH]; [reflexivity|].
    simpl in Hb, Hts |- *. apply andb_true_iff in Hb as [Hc Hb].
    apply andb_true_iff in Hts as [Hs Hts].
    rewrite (safe_blank_is_space c Hs Hc). simpl. auto.
  - apply rstrip_idempotent.
Qed.

(** ** The eligibility scan *)

Lemma in_py_range (lo hi r : Z) : In r (py_range lo hi) <-> lo <= r < hi.
Proof.
  unfold py_range. rewrite in_map_iff. split.
  - intros [i [<- Hi]]. apply in_seq in Hi. lia.
  - intros H. exists (Z.to_nat (r - lo)). split; [lia|].
    apply in_seq. lia.
Qed.

Lemma scan_loop_with_date (ws : worksheet) (todo acc : list Z) (r : Z)
    (t : string) :
  In r todo -> ws_cell ws "E" r = VDate t ->
  exists e, scan_loop ws acc todo = Raise e /\ exn_cls e = TypeError.
Proof.
  intros Hin Hdate. revert acc.
  induction todo as [|row todo IH]; [destruct Hin|]. intros acc.
  simpl. unfold scan_row.
  destruct (ws_cell ws "E" row) as [|s|f|b|d] eqn:Hcell; simpl.
  5: { eexists. split; reflexivity. }
  all: destruct Hin as [->|Hin]; [congruence|].
  all: try (apply IH; exact Hin).
  - destruct (float_of_text s); simpl; [|apply IH; exact Hin].
    destruct (_ && _); simpl; apply IH; exact Hin.
  - destruct (_ && _); simpl; apply IH; exact Hin.
  - destruct (_ && _); simpl; apply IH; exact Hin.
Qed.

Lemma scan_loop_without_dates (ws : worksheet) (todo acc : list Z) :
  (forall r t, In r todo -> ws_cell ws "E" r <> VDate t) ->
  scan_loop ws acc todo = Ok (acc ++ List.filter (eligible ws) todo)%list.
Proof.
  revert acc. induction todo as [|row todo IH]; intros acc Hno; simpl.
  - rewrite app_nil_r. reflexivity.
  - assert (Hrest : forall r t, In r todo -> ws_cell ws "E" r <> VDate t)
      by (intros r t Hr; apply Hno; right; exact Hr).
    assert (Hrow : forall t, ws_cell ws "E" row <> VDate t)
      by (intros t; apply Hno; left; reflexivity).
    unfold scan_row, eligible.
    destruct (ws_cell ws "E" row) as [|s|f|b|d]; simpl.
    5: { exfalso. apply (Hrow d). reflexivity. }
    + apply IH, Hrest.
    + destruct (float_of_text s); simpl; [|apply IH, Hrest].
      destruct (_ && _); simpl; rewrite IH by exact Hrest;
        [rewrite <- app_assoc|]; reflexivity.
    + destruct (_ && _); simpl; rewrite IH by exact Hrest;
        [rewrite <- app_assoc|]; reflexivity.
    + destruct (_ && _); simpl; rewrite IH by exact Hrest;
        [rewrite <- app_assoc|]; reflexivity.
Qed.

(** Without a date in the fraction column, the scan gives the rows of
    2..last that pass the test, in the order of the sheet. *)
Lemma scan_rows_without_dates (ws : worksheet) :
  (forall r t, 2 <= r <= ws_end_down_A1 ws -> ws_cell ws "E" r <> VDate t) ->
  scan_rows ws
  = Ok (List.filter (eligible ws) (py_range 2 (ws_end_down_A1 ws + 1))).
Proof.
  intros Hno. unfold scan_rows.
  rewrite scan_loop_without_dates; [reflexivity|].
  intros r t Hr. apply Hno. apply in_py_range in Hr. lia.
Qed.

(** C3: a date in the fraction cell of a row between 2 and the last row.
    [float] raises [TypeError] on it, the scan handles [ValueError] only,
    and so the scan as a whole raises instead of leaving the row out. *)
Theorem scan_raises_on_date_cell (ws : worksheet) (r : Z) (t : string) :
  2 <= r <= ws_end_down_A1 ws ->
  ws_cell ws "E" r = VDate t ->
  exists e, scan_rows ws = Raise e /\ exn_cls e = TypeError.
Proof.
  intros Hr Hdate. unfold scan_rows.
  apply (scan_loop_with_date ws _ [] r t); [|exact Hdate].
  apply in_py_range. lia.
Qed.

(** ** One row *)

Lemma app_assoc_cons {A : Type} (l : list A) (a : A) (m : list A) :
  ((l ++ [a]) ++ m = l ++ a :: m)%list.
Proof. rewrite <- app_assoc. reflexivity. Qed.

Lemma write_cells_log (book : string) (update_data : list (string * value))
    (log log' : list event) (r : result unit) :
  write_cells book update_data log = (log', r) ->
  exists evs, (log' = log ++ evs)%list /\ forallb is_fill_call evs = true.
Proof.
  revert log. induction update_data as [|[addr v] rest IH]; intros log H.
  - injection H as <- _. exists []. rewrite app_nil_r. auto.
  - simpl in H. unfold bindM, do_call in H.
    destruct (engine log (WriteCell book addr v)) as [e|].
    + injection H as <- _. exists [Called (WriteCell book addr v) (Some e)].
      auto.
    + apply IH in H as [evs [-> Hf]].
      exists (Called (WriteCell book addr v) None :: evs).
      rewrite app_assoc_cons. auto.
Qed.

Lemma fill_template_log (book : string) (row : row_data) (tdp : value)
    (log log' : list event) (r : result unit) :
  fill_template book row tdp log = (log', r) ->
  exists evs, (log' = log ++ evs)%list /\ forallb is_fill_call evs = true.
Proof.
  unfold fill_template, open_and_prepare, bindM, do_call, lift, ret.
  destruct (engine log (OpenBook book)) as [e|].
  - intros H. injection H as <- _. exists [Called (OpenBook book) (Some e)].
    auto.
  - destruct (rounded_kg (volume_of_fuel_supplied row)) as [kg|e].
    + intros H. apply write_cells_log in H as [evs [-> Hf]].
      exists (Called (OpenBook book) None :: evs).
      rewrite app_assoc_cons. auto.
    + intros H. injection H as <- _. exists [Called (OpenBook book) None].
      auto.
Qed.

Lemma existsb_none {A : Type} (p q : A -> bool) (l : list A) :
  (forall a, p a = true -> q a = false) ->
  forallb p l = true -> existsb q l = false.
Proof.
  intros Hpq. induction l as [|a l IH]; simpl; [reflexivity|].
  intros H. apply andb_true_iff in H as [Ha Hl].
  rewrite (Hpq _ Ha), (IH Hl). reflexivity.
Qed.

Lemma fill_call_not_export_returned (ev : event) :
  is_fill_call ev = true -> export_returned ev = false.
Proof. destruct ev as [[] []| | |]; simpl; congruence. Qed.

Lemma fill_call_not_close_returned (ev : event) :
  is_fill_call ev = true -> close_returned ev = false.
Proof. destruct ev as [[] []| | |]; simpl; congruence. Qed.

Lemma string_app_inv_head (s a b : string) : s ++ a = s ++ b -> a = b.
Proof.
  induction s as [|c s IH]; simpl; [auto|].
  intros H. injection H as H. auto.
Qed.

(** The temporary copy and the declared outputs are different files. *)
Lemma temp_is_not_excel_output (output_folder : string) (row_number : Z)
    (row : row_data) :
  temp_excel_file output_folder row_number row
  <> excel_output_file output_folder row.
Proof.
  unfold temp_excel_file, excel_output_file, os_path_join.
  intros H. do 2 apply string_app_inv_head in H. discriminate H.
Qed.

Lemma excel_output_given (output_folder : string) (row : row_data) :
  path_given (Some (excel_output_file output_folder row)) = true.
Proof.
  unfold path_given, excel_output_file, os_path_join.
  destruct output_folder; [|reflexivity].
  destruct (path_sep EmptyString); reflexivity.
Qed.

Lemma fill_calls_quiet (fe : list event) :
  forallb is_fill_call fe = true ->
  existsb export_raised fe = false
  /\ existsb is_export fe = false
  /\ existsb is_remove fe = false
  /\ existsb is_cleaner_event fe = false
  /\ files_written fe = []
  /\ flat_map save_target fe = []
  /\ flat_map row_mark fe = []
  /\ flat_map row_error fe = [].
Proof.
  induction fe as [|ev fe IH]; simpl; [repeat split|].
  intros H. apply andb_true_iff in H as [Hev Hfe].
  specialize (IH Hfe). unfold files_written in IH |- *. simpl.
  destruct ev as [[] []| | |]; simpl in Hev |- *; try discriminate;
    decompose [and] IH; repeat split; congruence.
Qed.

Ltac quiet Hfe :=
  let Q := fresh "Q" in
  pose proof (fill_calls_quiet _ Hfe) as Q;
  decompose [and] Q; clear Q;
  pose proof (existsb_none _ _ _ fill_call_not_export_returned Hfe);
  pose proof (existsb_none _ _ _ fill_call_not_close_returned Hfe).

Lemma files_written_app (a b : list event) :
  files_written (a ++ b) = (files_written a ++ files_written b)%list.
Proof. apply flat_map_app. Qed.

(** Unfolds a run of [create_declaration_for_row] into its branches. *)
Ltac unfold_row H :=
  unfold create_declaration_for_row, extract_row_data, fill_and_export,
    export_pdf, save_excel, bindM, catch, say, lift, ret, do_call in H.

Ltac split_on_world H :=
  repeat match type of H with
  | context [match engine ?l ?c with _ => _ end] =>
      destruct (engine l c) eqn:?; simpl in H
  | context [fill_template ?b ?r ?t ?l] =>
      let log1 := fresh "log1" in
      let res := fresh "res" in
      let Hfill := fresh "Hfill" in
      let fe := fresh "fe" in
      let Hfe := fresh "Hfe" in
      destruct (fill_template b r t l) as [log1 [[]|?]] eqn:Hfill;
      apply fill_template_log in Hfill as [fe [-> Hfe]]; simpl in H
  end.

Ltac events_of H :=
  repeat rewrite <- app_assoc in H; apply app_inv_head in H; simpl in H.

(** The two calls of [extract_row_data]; [tac] closes the branches where one
    of them raises. *)
Ltac read_source H tac :=
  simpl in H;
  destruct (engine _ OpenSource) eqn:?; simpl in H; [tac|];
  destruct (engine _ CloseSource) eqn:?; simpl in H; [tac|].

(** C1: a row run with [save_as_pdf] on and [keep_excel] off whose PDF
    export raises. The call returns the editable output path, but the one
    save it makes is [wb.save()], which writes the workbook back to the
    temporary copy: no call of the run writes a file at the returned
    path. *)
Theorem export_failure_saves_in_place (source_file : worksheet)
    (template_file : string) (row_number : Z) (output_folder : string)
    (temps : option (list string)) (log evs : list event)
    (res : result (option string * option (list string))) :
  create_declaration_for_row source_file template_file row_number
    output_folder true false temps log = ((log ++ evs)%list, res) ->
  existsb export_raised evs = true ->
  let row := row_values source_file row_number in
  res = Ok (Some (excel_output_file output_folder row), temps)
  /\ flat_map save_target evs
     = [temp_excel_file output_folder row_number row]
  /\ ~ In (excel_output_file output_folder row) (files_written evs).
Proof.
  intros H Hx row. unfold_row H. fold row in H.
  pose proof (temp_is_not_excel_output output_folder row_number row) as Hne.
  read_source H ltac:(injection H as Hlog _; events_of Hlog; subst evs; discriminate).
  destruct (truthy _); simpl in H;
    [|injection H as Hlog _; events_of Hlog; subst evs; discriminate].
  destruct (process_declaration_period _);
    [|injection H as Hlog _; events_of Hlog; subst evs; discriminate].
  split_on_world H.
  all: injection H as Hlog <-.
  all: events_of Hlog; subst evs.
  all: try quiet Hfe.
  all: simpl in Hx; rewrite ?existsb_app in Hx; simpl in Hx.
  all: repeat match goal with
       | E : existsb _ _ = false |- _ => rewrite ?E in Hx; clear E
       end.
  all: try discriminate Hx.
  all: destruct temps; simpl.
  all: rewrite ?flat_map_app, ?files_written_app; simpl.
  all: repeat match goal with
       | E : flat_map _ _ = [] |- _ => rewrite ?E; clear E
       | E : files_written _ = [] |- _ => rewrite ?E; clear E
       end; simpl.
  all: split; [reflexivity|]; split; [reflexivity|].
  all: intros Hin.
  all: repeat (destruct Hin as [Hin|Hin]; [apply Hne; exact Hin|]).
  all: exact Hin.
Qed.

(** C6 (as amended): for a row that returns a path, the temporary copy is
    added to the caller's list exactly when [keep_excel] is off, the export
    returned and the workbook was then closed without an exception; in every
    other case the list is left as it was. *)
Theorem temp_registered_iff (source_file : worksheet)
    (template_file : string) (row_number : Z) (output_folder : string)
    (save_as_pdf keep_excel : bool) (l : list string)
    (log evs : list event) (p : string) (temps : option (list string)) :
  create_declaration_for_row source_file template_file row_number
    output_folder save_as_pdf keep_excel (Some l) log
  = ((log ++ evs)%list, Ok (Some p, temps)) ->
  temps = Some (if negb keep_excel && existsb export_returned evs
                   && existsb close_returned evs
                then (l ++ [temp_excel_file output_folder row_number
                              (row_values source_file row_number)])%list
                else l).
Proof.
  intros H. unfold_row H.
  read_source H ltac:(discriminate).
  destruct (truthy _); simpl in H; [|discriminate].
  destruct (process_declaration_period _); [|discriminate].
  split_on_world H; try discriminate.
  all: destruct save_as_pdf, keep_excel; simpl in H.
  all: split_on_world H.
  all: injection H as Hlog _ <-.
  all: events_of Hlog; subst evs.
  all: simpl; rewrite ?existsb_app; simpl.
  all: rewrite ?(existsb_none _ _ _ fill_call_not_export_returned Hfe).
  all: rewrite ?(existsb_none _ _ _ fill_call_not_close_returned Hfe).
  all: simpl; try reflexivity.
Qed.

(** C2 (as amended): when opening the copy, building the values or writing
    a cell raises, [create_declaration_for_row] handles the exception itself
    and returns a path with the caller's list of temporary files unchanged;
    beyond the reading of the row and the copy of the template the run
    consists of the open and write calls made up to the failure, so nothing
    is exported or saved; and the turn of the batch loop ends without a new
    error entry. *)
Theorem field_write_failure_is_swallowed (source_file : worksheet)
    (template_file : string) (row_number : Z) (output_folder : string)
    (save_as_pdf keep_excel : bool) (temps : option (list string))
    (log log1 : list event) (tdp : value) (e : exn) :
  let row := row_values source_file row_number in
  let temp := temp_excel_file output_folder row_number row in
  let read :=
    [Printed (ProcessingRow row_number);
     Called OpenSource None; Called CloseSource None] in
  let started :=
    (read ++ [Called (CopyTemplate template_file temp) None])%list in
  extract_row_data source_file row_number
    (log ++ [Printed (ProcessingRow row_number)])%list
  = ((log ++ read)%list, Ok row) ->
  truthy (customer_name row) = true ->
  process_declaration_period (declaration_period row) = Ok tdp ->
  engine (log ++ read)%list (CopyTemplate template_file temp) = None ->
  fill_template temp row tdp (log ++ started)%list = (log1, Raise e) ->
  (exists p,
     create_declaration_for_row source_file template_file row_number
       output_folder save_as_pdf keep_excel temps log
     = (log1, Ok (Some p, temps)))
  /\ (exists fe,
        (log1 = log ++ started ++ fe)%list
        /\ existsb is_export fe = false
        /\ flat_map save_target fe = []
        /\ files_written fe = [])
  /\ (forall acc : report,
        temps = Some (temp_files_to_cleanup acc) ->
        exists log2 rep,
          process_row source_file template_file output_folder save_as_pdf
            keep_excel acc row_number log = (log2, Ok rep)
          /\ error_files rep = error_files acc
          /\ temp_files_to_cleanup rep = temp_files_to_cleanup acc).
Proof.
  intros row temp read started Hread Hname Hperiod Hcopy Hfill.
  assert (Hrun :
    create_declaration_for_row source_file template_file row_number
      output_folder save_as_pdf keep_excel temps log
    = (log1, Ok (Some (excel_output_file output_folder row), temps))).
  { unfold create_declaration_for_row, fill_and_export, bindM, catch, say,
      lift, ret, do_call.
    rewrite Hread, Hname. cbn [negb]. rewrite Hperiod. fold temp.
    rewrite Hcopy. rewrite <- app_assoc.
    change (read ++ [Called (CopyTemplate template_file temp) None])%list
      with started.
    rewrite Hfill.
    rewrite andb_false_r. unfold register_temp.
    destruct temps; rewrite ?andb_false_r; reflexivity. }
  split; [eauto|]. split.
  - apply fill_template_log in Hfill as [fe [-> Hfe]]. quiet Hfe.
    exists fe. rewrite <- app_assoc. auto.
  - intros acc ->. unfold process_row, catch, bindM. rewrite Hrun.
    rewrite excel_output_given. unfold say, ret. simpl. eauto.
Qed.

(** ** The cleaner *)

Lemma attempts_trace_after_failure (path : string) (n : nat) (k : Z)
    (e : exn) (evs : list event) :
  attempts_trace path n (k + 1) evs ->
  attempts_trace path (S n) k (failed_attempt path k e ++ evs).
Proof.
  intros [es Hn | es Hn | es Hn].
  - rewrite app_assoc. apply (already_gone path (S n) k (e :: es)).
    simpl. lia.
  - rewrite app_assoc. apply (removed path (S n) k (e :: es)).
    simpl. lia.
  - rewrite app_assoc. apply (gave_up path (S n) k (e :: es)).
    simpl. lia.
Qed.

Lemma world_agrees_app (log a b : list event) :
  world_agrees log (a ++ b) <->
  world_agrees log a /\ world_agrees (log ++ a)%list b.
Proof.
  revert log. induction a as [|ev a IH]; intros log.
  - simpl. rewrite app_nil_r. split; [intros H; split; [exact I|exact H]|].
    intros [_ H]. exact H.
  - cbn [app world_agrees]. rewrite IH, <- app_assoc. cbn [app]. split.
    + intros [Hev [Ha Hb]]. split; [split|]; assumption.
    + intros [[Hev Ha] Hb]. split; [|split]; assumption.
Qed.

Lemma delete_attempts_trace (n : nat) (k : Z) (path : string)
    (log : list event) :
  exists evs,
    delete_attempts n k path log = ((log ++ evs)%list, Ok tt)
    /\ attempts_trace path n (k + 1) evs
    /\ world_agrees log evs.
Proof.
  revert k log. induction n as [|n IH]; intros k log.
  - exists [Printed (CouldNotDelete path)]. split; [reflexivity|].
    split; [|simpl; auto].
    apply (gave_up path 0 (k + 1) []). reflexivity.
  - simpl. unfold delete_attempt, bindM, catch, ask_exists, do_call, say,
      sleep, ret.
    destruct (path_exists log path) eqn:Hex.
    + destruct (engine (log ++ [Exists path true]) (Remove path)) as [e|]
        eqn:Hrm.
      * match goal with
        | |- context [delete_attempts n (k + 1) path ?l] =>
            destruct (IH (k + 1) l) as [evs (Hrun & Htr & Hw)]
        end.
        exists (failed_attempt path (k + 1) e ++ evs)%list. split.
        -- rewrite Hrun. repeat rewrite <- app_assoc. reflexivity.
        -- split; [apply attempts_trace_after_failure; exact Htr|].
           apply world_agrees_app. split.
           ++ simpl. rewrite Hex, Hrm. auto.
           ++ unfold failed_attempt. repeat rewrite <- app_assoc in Hw.
              exact Hw.
      * eexists. split; [|split].
        -- repeat rewrite <- app_assoc. reflexivity.
        -- apply (removed path (S n) (k + 1) []). simpl. lia.
        -- simpl. rewrite Hex, Hrm. auto.
    + exists [Exists path false]. split; [reflexivity|]. split.
      * apply (already_gone path (S n) (k + 1) []). simpl. lia.
      * simpl. rewrite Hex. auto.
Qed.

Lemma cleanup_loop_trace (temp_files : list string) (log : list event) :
  exists blocks,
    cleanup_loop temp_files log = ((log ++ List.concat blocks)%list, Ok tt)
    /\ Forall2 path_cleanup temp_files blocks
    /\ world_agrees log (List.concat blocks).
Proof.
  revert log. induction temp_files as [|path rest IH]; intros log.
  - exists []. simpl. rewrite app_nil_r.
    split; [reflexivity|]. split; [constructor|exact I].
  - cbn [cleanup_loop]. unfold bindM.
    destruct (delete_attempts_trace 5 0 path log) as [evs (Hrun & Htr & Hw)].
    rewrite Hrun.
    destruct (IH (log ++ evs)%list) as [blocks (Hrest & Hall & Hws)].
    exists (evs :: blocks). simpl. rewrite Hrest, <- app_assoc.
    split; [reflexivity|]. split; [constructor; assumption|].
    apply world_agrees_app. split; assumption.
Qed.

(** C7: [cleanup_temp_files] always returns. On an empty or absent list it
    only says so. Otherwise, after its first line, the log is made of one
    block per path, in order, and each block is a [path_cleanup]: at most
    four failed attempts, each followed by a pause of one second, and then
    an attempt that finds the path gone or removes it, after which nothing
    more is tried; or five failed attempts, each followed by the pause, and
    the report that the path could not be deleted. Every answer in that log
    is the one the world gives at that moment: an attempt finds the path
    gone exactly when [os.path.exists] says so, [os.remove] is called
    whenever the path is there, and an attempt fails exactly when that call
    raises. *)
Theorem cleanup_is_bounded_and_never_raises
    (temp_files_list : option (list string)) (log : list event) :
  exists evs,
    cleanup_temp_files temp_files_list log = ((log ++ evs)%list, Ok tt)
    /\ world_agrees log evs
    /\ match temp_files_list with
       | None | Some [] => evs = [Printed NoTempFiles]
       | Some l =>
           exists blocks,
             evs = Printed (Attempting (Z.of_nat (List.length l)))
                   :: List.concat blocks
             /\ Forall2 path_cleanup l blocks
       end.
Proof.
  destruct temp_files_list as [[|path rest]|].
  1, 3: exists [Printed NoTempFiles]; simpl; auto.
  unfold cleanup_temp_files, bindM, say.
  match goal with
  | |- context [cleanup_loop ?l ?lg] =>
      destruct (cleanup_loop_trace l lg) as [blocks (Hrun & Hall & Hw)]
  end.
  rewrite Hrun. eexists. split; [|split].
  - rewrite <- app_assoc. reflexivity.
  - cbn [app world_agrees answered]. split; [exact I|exact Hw].
  - exists blocks. split; [reflexivity|exact Hall].
Qed.

(** ** The batch *)

Ltac rewrite_quiet :=
  repeat match goal with
  | E : existsb _ _ = false |- _ => rewrite ?E; clear E
  | E : flat_map _ _ = [] |- _ => rewrite ?E; clear E
  | E : files_written _ = [] |- _ => rewrite ?E; clear E
  end.

(** A row leaves no cleaner event and no end-of-turn line of its own. *)
Lemma create_declaration_log (source_file : worksheet)
    (template_file : string) (row_number : Z) (output_folder : string)
    (save_as_pdf keep_excel : bool) (temps : option (list string))
    (log log' : list event)
    (res : result (option string * option (list string))) :
  create_declaration_for_row source_file template_file row_number
    output_folder save_as_pdf keep_excel temps log = (log', res) ->
  exists evs,
    (log' = log ++ evs)%list
    /\ existsb is_cleaner_event evs = false
    /\ flat_map row_mark evs = []
    /\ flat_map row_error evs = [].
Proof.
  intros H. unfold_row H.
  read_source H ltac:(injection H as <- _; repeat rewrite <- app_assoc; eexists; split; [reflexivity|auto]).
  destruct (truthy _); simpl in H;
    [|injection H as <- _; repeat rewrite <- app_assoc; eexists;
      split; [reflexivity|auto]].
  destruct (process_declaration_period _);
    [|injection H as <- _; repeat rewrite <- app_assoc; eexists;
      split; [reflexivity|auto]].
  destruct save_as_pdf, keep_excel; simpl in H.
  all: split_on_world H.
  all: injection H as <- _.
  all: try quiet Hfe.
  all: repeat rewrite <- app_assoc.
  all: eexists; (split; [reflexivity|]).
  all: simpl; rewrite ?existsb_app, ?flat_map_app; simpl.
  all: rewrite_quiet; auto.
Qed.

Lemma process_row_log (source_file : worksheet)
    (template_file output_folder : string) (save_as_pdf keep_excel : bool)
    (acc : report) (row_num : Z) (log : list event) :
  exists evs rep,
    process_row source_file template_file output_folder save_as_pdf
      keep_excel acc row_num log = ((log ++ evs)%list, Ok rep)
    /\ flat_map row_mark evs = [row_num]
    /\ existsb is_cleaner_event evs = false
    /\ error_files rep = (error_files acc ++ flat_map row_error evs)%list.
Proof.
  unfold process_row, catch, bindM.
  destruct (create_declaration_for_row _ _ _ _ _ _ _ _)
    as [log' [[output_file temps]|e]] eqn:H.
  all: apply create_declaration_log in H as [evs [-> (Hc & Hm & He)]].
  1: destruct (path_given output_file).
  all: unfold say, ret; rewrite <- app_assoc.
  all: eexists; eexists; (split; [reflexivity|]).
  all: rewrite existsb_app, !flat_map_app, Hc, Hm, He; simpl.
  all: rewrite ?app_nil_r; auto.
Qed.

Lemma process_rows_log (source_file : worksheet)
    (template_file output_folder : string) (save_as_pdf keep_excel : bool)
    (rows : list Z) (acc : report) (log : list event) :
  exists evs rep,
    process_rows source_file template_file output_folder save_as_pdf
      keep_excel acc rows log = ((log ++ evs)%list, Ok rep)
    /\ flat_map row_mark evs = rows
    /\ existsb is_cleaner_event evs = false
    /\ error_files rep = (error_files acc ++ flat_map row_error evs)%list.
Proof.
  revert acc log. induction rows as [|row rest IH]; intros acc log.
  - exists [], acc. simpl. rewrite !app_nil_r. auto.
  - cbn [process_rows]. unfold bindM.
    destruct (process_row_log source_file template_file output_folder
                save_as_pdf keep_excel acc row log)
      as [evs1 [acc1 (Hrun1 & Hm1 & Hc1 & He1)]].
    rewrite Hrun1.
    destruct (IH acc1 (log ++ evs1)%list)
      as [evs2 [rep (Hrun2 & Hm2 & Hc2 & He2)]].
    exists (evs1 ++ evs2)%list, rep. rewrite Hrun2, app_assoc.
    split; [reflexivity|].
    rewrite existsb_app, !flat_map_app, Hm1, Hm2, Hc1, Hc2, He2, He1.
    rewrite <- app_assoc. auto.
Qed.

Lemma failed_attempts_events (path : string) (k : Z) (es : list exn) :
  forallb is_cleaner_event (failed_attempts path k es) = true
  /\ List.filter is_cleaner_start (failed_attempts path k es) = [].
Proof.
  revert k. induction es as [|e es IH]; intros k; simpl; [auto|].
  destruct (IH (k + 1)) as [-> ->]. auto.
Qed.

Lemma attempts_trace_events (path : string) (n : nat) (k : Z)
    (evs : list event) :
  attempts_trace path n k evs ->
  forallb is_cleaner_event evs = true
  /\ List.filter is_cleaner_start evs = [].
Proof.
  intros [es _ | es _ | es _].
  all: destruct (failed_attempts_events path k es) as [Hc Hs].
  all: rewrite forallb_app, filter_app, Hc, Hs; auto.
Qed.

Lemma cleanup_blocks_events (paths : list string)
    (blocks : list (list event)) :
  Forall2 path_cleanup paths blocks ->
  forallb is_cleaner_event (List.concat blocks) = true
  /\ List.filter is_cleaner_start (List.concat blocks) = [].
Proof.
  induction 1 as [|path evs paths blocks Htr _ [IHc IHs]]; simpl; [auto|].
  apply attempts_trace_events in Htr as [Hc Hs].
  rewrite forallb_app, filter_app, Hc, Hs, IHc, IHs. auto.
Qed.

(** The cleaner says its first line once, and all it does is cleaning. *)
Lemma cleanup_log (temp_files_list : option (list string))
    (log : list event) :
  exists cl,
    cleanup_temp_files temp_files_list log = ((log ++ cl)%list, Ok tt)
    /\ forallb is_cleaner_event cl = true
    /\ List.length (List.filter is_cleaner_start cl) = 1%nat.
Proof.
  destruct temp_files_list as [[|path rest]|].
  1, 3: exists [Printed NoTempFiles]; auto.
  unfold cleanup_temp_files, bindM, say.
  match goal with
  | |- context [cleanup_loop ?l ?lg] =>
      destruct (cleanup_loop_trace l lg) as [blocks (Hrun & Hall & _)]
  end.
  rewrite Hrun, <- app_assoc. eexists. split; [reflexivity|].
  apply cleanup_blocks_events in Hall as [Hc Hs].
  simpl. rewrite Hc, Hs. auto.
Qed.

Lemma create_registers_at_most_its_temp (source_file : worksheet)
    (template_file : string) (row_number : Z) (output_folder : string)
    (save_as_pdf keep_excel : bool) (l : list string)
    (log log' : list event) (o : option string)
    (temps : option (list string)) :
  create_declaration_for_row source_file template_file row_number
    output_folder save_as_pdf keep_excel (Some l) log
  = (log', Ok (o, temps)) ->
  temps = Some l
  \/ temps = Some (l ++ [temp_excel_file output_folder row_number
                           (row_values source_file row_number)])%list.
Proof.
  intros H. unfold_row H.
  read_source H ltac:(discriminate).
  destruct (truthy _); simpl in H; [|injection H as _ _ <-; auto].
  destruct (process_declaration_period _); [|discriminate].
  split_on_world H; try discriminate.
  all: destruct save_as_pdf, keep_excel; simpl in H.
  all: split_on_world H.
  all: injection H as _ _ <-.
  all: simpl; auto.
Qed.

Lemma pdf_output_given (output_folder : string) (row : row_data) :
  path_given (Some (pdf_output_file output_folder row)) = true.
Proof.
  unfold path_given, pdf_output_file, os_path_join.
  destruct output_folder; [|reflexivity].
  destruct (path_sep EmptyString); reflexivity.
Qed.

(** A path that [create_declaration_for_row] returns is never empty. *)
Lemma returned_path_given (source_file : worksheet)
    (template_file : string) (row_number : Z) (output_folder : string)
    (save_as_pdf keep_excel : bool) (temps temps' : option (list string))
    (log log' : list event) (p : string) :
  create_declaration_for_row source_file template_file row_number
    output_folder save_as_pdf keep_excel temps log
  = (log', Ok (Some p, temps')) ->
  path_given (Some p) = true.
Proof.
  intros H. unfold_row H.
  read_source H ltac:(discriminate).
  destruct (truthy _); simpl in H; [|discriminate].
  destruct (process_declaration_period _); [|discriminate].
  split_on_world H; try discriminate.
  all: destruct save_as_pdf, keep_excel; simpl in H.
  all: split_on_world H.
  all: injection H as _ <- _.
  all: first [apply pdf_output_given | apply excel_output_given].
Qed.

(** The loop of the source does what the specification says of it. *)
Lemma process_rows_in_order (source_file : worksheet)
    (template_file output_folder : string) (save_as_pdf keep_excel : bool)
    (rows : list Z) (acc rep : report) (log log' : list event) :
  process_rows source_file template_file output_folder save_as_pdf
    keep_excel acc rows log = (log', Ok rep) ->
  rows_in_order source_file template_file output_folder save_as_pdf
    keep_excel acc log rows log' rep.
Proof.
  revert acc log. induction rows as [|row rest IH]; intros acc log H.
  - injection H as <- <-. constructor.
  - cbn [process_rows] in H. unfold bindM in H.
    destruct (process_row _ _ _ _ _ _ _ _) as [log1 [acc1|e]] eqn:Hrow;
      [|discriminate].
    apply IH in H. unfold process_row, catch, bindM in Hrow.
    destruct (create_declaration_for_row _ _ _ _ _ _ _ _)
      as [log2 [[o temps]|e]] eqn:Hc.
    + assert (Ht : exists t, temps = Some t).
      { apply create_registers_at_most_its_temp in Hc as [->| ->];
          eexists; reflexivity. }
      destruct Ht as [t ->]. destruct o as [p|].
      * rewrite (returned_path_given _ _ _ _ _ _ _ _ _ _ _ Hc) in Hrow.
        unfold say, ret in Hrow. injection Hrow as <- <-.
        eapply row_created; [exact Hc|exact H].
      * cbn [path_given] in Hrow. unfold say, ret in Hrow.
        injection Hrow as <- <-.
        eapply row_passed_over; [exact Hc|exact H].
    + unfold say, ret in Hrow. injection Hrow as <- <-.
      eapply row_failed; [exact Hc|exact H].
Qed.

(** C8: the batch on the rows found by the scan, once the source workbook
    has been opened, scanned and closed. The loop returns a report
    whatever the rows do; its log closes one turn per row, in the order of
    the list; the error entries of the report are the rows whose turn ended
    in an exception, with the message; the cleaner runs on the list of the
    report from the log the loop left, says its first line once in the whole
    run, and nothing of the cleaner happens before the loop is over. An
    exception out of [create_declaration_for_row] ends the turn with an
    error entry of the row and its message, and a report to go on with.
    The loop is [rows_in_order]: each row is one call of
    [create_declaration_for_row] from the log and the lists the row before
    left, a returned path goes to the created files, an exception to the
    error entries, and the list of temporary files goes from call to call
    and, after the last row, to the cleaner. *)
Theorem batch_survives_row_failures (source_file : worksheet)
    (template_file output_folder : string) (save_as_pdf keep_excel : bool)
    (rows : list Z) (log0 : list event) :
  let log :=
    (log0 ++ [Called OpenSource None; Called CloseSource None])%list in
  engine log0 OpenSource = None ->
  scan_rows source_file = Ok rows ->
  engine (log0 ++ [Called OpenSource None])%list CloseSource = None ->
  exists evs cl rep,
    process_rows source_file template_file output_folder save_as_pdf
      keep_excel empty_report rows log = ((log ++ evs)%list, Ok rep)
    /\ cleanup_temp_files (Some (temp_files_to_cleanup rep)) (log ++ evs)%list
       = ((log ++ evs ++ cl)%list, Ok tt)
    /\ process_all_supply_blend_rows source_file template_file output_folder
         save_as_pdf keep_excel log0 = ((log ++ evs ++ cl)%list, Ok rep)
    /\ rows_in_order source_file template_file output_folder save_as_pdf
         keep_excel empty_report log rows (log ++ evs)%list rep
    /\ flat_map row_mark evs = rows
    /\ flat_map row_error evs = error_files rep
    /\ existsb is_cleaner_event evs = false
    /\ forallb is_cleaner_event cl = true
    /\ List.length (List.filter is_cleaner_start (evs ++ cl)) = 1%nat
    /\ (forall (acc : report) (row_num : Z) (before after : list event)
               (e : exn),
          create_declaration_for_row source_file template_file row_num
            output_folder save_as_pdf keep_excel
            (Some (temp_files_to_cleanup acc)) before = (after, Raise e) ->
          process_row source_file template_file output_folder save_as_pdf
            keep_excel acc row_num before
          = ((after ++ [Printed (RowError row_num (exn_msg e))])%list,
             Ok {| created_files := created_files acc;
                   error_files :=
                     (error_files acc ++ [(row_num, exn_msg e)])%list;
                   temp_files_to_cleanup := temp_files_to_cleanup acc |})).
Proof.
  intros log Hopen Hscan Hclose.
  destruct (process_rows_log source_file template_file output_folder
              save_as_pdf keep_excel rows empty_report log)
    as [evs [rep (Hrun & Hm & Hc & He)]].
  destruct (cleanup_log (Some (temp_files_to_cleanup rep)) (log ++ evs)%list)
    as [cl (Hclean & Hcl & Hone)].
  rewrite <- app_assoc in Hclean.
  exists evs, cl, rep.
  split; [exact Hrun|]. split; [exact Hclean|]. split.
  { unfold process_all_supply_blend_rows, bindM, lift, ret, do_call.
    rewrite Hopen, Hscan, Hclose, <- app_assoc. cbn [app]. fold log.
    rewrite Hrun, Hclean. reflexivity. }
  split; [apply process_rows_in_order; exact Hrun|].
  split; [exact Hm|]. split; [rewrite He; reflexivity|].
  split; [exact Hc|]. split; [exact Hcl|]. split.
  { rewrite filter_app, length_app, Hone.
    assert (Hnone : List.filter is_cleaner_start evs = []).
    { clear - Hc. induction evs as [|ev evs IH]; [reflexivity|].
      simpl in Hc |- *. apply orb_false_iff in Hc as [Hev Hc].
      rewrite (IH Hc).
      destruct ev as [| | |[]]; simpl in Hev |- *; congruence. }
    rewrite Hnone. reflexivity. }
  intros acc row_num before after e Hraise.
  unfold process_row, catch, bindM. rewrite Hraise. reflexivity.
Qed.

(** With both flags off no row registers anything, so the cleaner finds an
    empty list and removes nothing. *)
Lemma create_flags_off_temps (source_file : worksheet)
    (template_file : string) (row_number : Z) (output_folder : string)
    (temps temps' : option (list string)) (log log' : list event)
    (o : option string) :
  create_declaration_for_row source_file template_file row_number
    output_folder false false temps log = (log', Ok (o, temps')) ->
  temps' = temps.
Proof.
  intros H. unfold_row H.
  read_source H ltac:(discriminate).
  destruct (truthy _); simpl in H; [|injection H as _ _ <-; reflexivity].
  destruct (process_declaration_period _); [|discriminate].
  split_on_world H; try discriminate.
  all: injection H as _ _ <-.
  all: destruct temps; reflexivity.
Qed.

Lemma process_row_flags_off (source_file : worksheet)
    (template_file output_folder : string) (acc rep : report) (row_num : Z)
    (log log' : list event) :
  process_row source_file template_file output_folder false false acc
    row_num log = (log', Ok rep) ->
  temp_files_to_cleanup rep = temp_files_to_cleanup acc.
Proof.
  unfold process_row, catch, bindM.
  destruct (create_declaration_for_row _ _ _ _ _ _ _ _)
    as [log1 [[o temps]|e]] eqn:H.
  - apply create_flags_off_temps in H as ->.
    destruct (path_given o); unfold say, ret; intros E;
      injection E as _ <-; reflexivity.
  - unfold say, ret. intros E. injection E as _ <-. reflexivity.
Qed.

Lemma process_rows_flags_off (source_file : worksheet)
    (template_file output_folder : string) (rows : list Z) (acc rep : report)
    (log log' : list event) :
  process_rows source_file template_file output_folder false false acc rows
    log = (log', Ok rep) ->
  temp_files_to_cleanup rep = temp_files_to_cleanup acc.
Proof.
  revert acc log. induction rows as [|row rest IH]; intros acc log.
  - intros E. injection E as _ <-. reflexivity.
  - cbn [process_rows]. unfold bindM.
    destruct (process_row _ _ _ _ _ _ _ _) as [log1 [acc1|e]] eqn:H;
      [|discriminate].
    intros E. apply IH in E. apply process_row_flags_off in H. congruence.
Qed.

Lemma no_cleaner_event_no_remove (evs : list event) :
  existsb is_cleaner_event evs = false -> existsb is_remove evs = false.
Proof.
  induction evs as [|ev evs IH]; simpl; [reflexivity|].
  intros H. apply orb_false_iff in H as [Hev H]. rewrite (IH H).
  destruct ev as [[] ?| | |]; simpl in Hev |- *; congruence.
Qed.

Lemma batch_flags_off_removes_nothing (source_file : worksheet)
    (template_file output_folder : string) (log0 log1 : list event)
    (rep : report) :
  process_all_supply_blend_rows source_file template_file output_folder
    false false log0 = (log1, Ok rep) ->
  temp_files_to_cleanup rep = []
  /\ exists evs1, (log1 = log0 ++ evs1)%list
                  /\ existsb is_remove evs1 = false.
Proof.
  unfold process_all_supply_blend_rows, bindM, lift, ret, do_call.
  destruct (engine log0 OpenSource); [discriminate|].
  destruct (scan_rows source_file) as [rows|e]; [|discriminate].
  destruct (engine _ CloseSource); [discriminate|].
  match goal with
  | |- context [process_rows _ _ _ _ _ _ _ ?l] =>
      destruct (process_rows_log source_file template_file output_folder
                  false false rows empty_report l)
        as [evs [rep0 (Hrun & _ & Hc & _)]]
  end.
  rewrite Hrun. pose proof (process_rows_flags_off _ _ _ _ _ _ _ _ Hrun) as Ht.
  simpl in Ht. rewrite Ht. simpl. unfold say.
  intros E. injection E as <- <-. split; [exact Ht|].
  exists ([Called OpenSource None; Called CloseSource None]
          ++ evs ++ [Printed NoTempFiles])%list.
  repeat rewrite <- app_assoc. split; [reflexivity|].
  cbn [app existsb is_remove orb].
  rewrite existsb_app, (no_cleaner_event_no_remove _ Hc). reflexivity.
Qed.

(** C9: with [save_as_pdf] and [keep_excel] both off, a row that returns a
    path returns the editable output path, with the list of temporary files
    unchanged; the run makes no export and no save, the only file it writes
    is the temporary copy, which is not the returned path, and it removes
    nothing. The batch loop adds the path to the created files. Over the
    whole batch the list given to the cleaner is empty and no file is
    removed. *)
Theorem no_document_when_both_flags_off (source_file : worksheet)
    (template_file : string) (row_number : Z) (output_folder : string)
    (temps temps' : option (list string)) (log evs : list event)
    (p : string) :
  create_declaration_for_row source_file template_file row_number
    output_folder false false temps log
  = ((log ++ evs)%list, Ok (Some p, temps')) ->
  let row := row_values source_file row_number in
  let temp := temp_excel_file output_folder row_number row in
  p = excel_output_file output_folder row
  /\ temps' = temps
  /\ existsb is_export evs = false
  /\ flat_map save_target evs = []
  /\ files_written evs = [temp]
  /\ ~ In p (files_written evs)
  /\ existsb is_remove evs = false
  /\ (forall acc : report,
        temps = Some (temp_files_to_cleanup acc) ->
        process_row source_file template_file output_folder false false acc
          row_number log
        = ((log ++ evs ++ [Printed (RowProcessed row_number)])%list,
           Ok {| created_files := (created_files acc ++ [p])%list;
                 error_files := error_files acc;
                 temp_files_to_cleanup := temp_files_to_cleanup acc |}))
  /\ (forall (log0 log1 : list event) (rep : report),
        process_all_supply_blend_rows source_file template_file output_folder
          false false log0 = (log1, Ok rep) ->
        temp_files_to_cleanup rep = []
        /\ exists evs1, (log1 = log0 ++ evs1)%list
                        /\ existsb is_remove evs1 = false).
Proof.
  intros H row temp.
  pose proof (temp_is_not_excel_output output_folder row_number row) as Hne.
  assert (Hp : p = excel_output_file output_folder row /\ temps' = temps).
  { unfold_row H. fold row in H.
    read_source H ltac:(discriminate).
    destruct (truthy _); simpl in H; [|discriminate].
    destruct (process_declaration_period _); [|discriminate].
    split_on_world H; try discriminate.
    all: injection H as _ <- <-.
    all: destruct temps; auto. }
  destruct Hp as [-> ->].
  assert (Hev : existsb is_export evs = false
                /\ flat_map save_target evs = []
                /\ files_written evs = [temp]
                /\ existsb is_remove evs = false).
  { pose proof H as H'. unfold_row H'. fold row in H'. fold temp in H'.
    read_source H' ltac:(discriminate).
    destruct (truthy _); simpl in H'; [|discriminate].
    destruct (process_declaration_period _); [|discriminate].
    split_on_world H'; try discriminate.
    all: injection H' as Hlog _.
    all: events_of Hlog; subst evs.
    all: quiet Hfe.
    all: simpl; rewrite ?existsb_app, ?flat_map_app, ?files_written_app; simpl.
    all: repeat match goal with
         | E : existsb _ _ = false |- _ => rewrite ?E; clear E
         | E : flat_map _ _ = [] |- _ => rewrite ?E; clear E
         | E : files_written _ = [] |- _ => rewrite ?E; clear E
         end; simpl.
    all: auto. }
  destruct Hev as (E1 & E2 & E3 & E4).
  split; [reflexivity|]. split; [reflexivity|]. split; [exact E1|].
  split; [exact E2|]. split; [exact E3|]. split.
  { rewrite E3. intros [Hin|[]]. apply Hne. exact Hin. }
  split; [exact E4|]. split.
  - intros acc ->. unfold process_row, catch, bindM. rewrite H.
    rewrite excel_output_given. unfold say, ret. simpl.
    rewrite <- app_assoc. reflexivity.
  - apply batch_flags_off_removes_nothing.
Qed.

(* ===================================================================== *)
(** * Further properties *)

(** ** The period formatter and the sanitizer *)

Lemma index_from_bounds (x : string) (xs : list string) (i n : Z) :
  PyStr.index_from i x xs = Ok n -> i <= n < i + Z.of_nat (List.length xs).
Proof.
  revert i. induction xs as [|y ys IH]; intros i H; [discriminate|].
  cbn [PyStr.index_from] in H. cbn [List.length].
  destruct (y =? x)%string.
  - injection H as <-. lia.
  - apply IH in H. lia.
Qed.

(** X1: on text the period formatter returns the text itself or the text
    with a span in front, and the span lies between -11 and 13. *)
Theorem period_on_text_shape (s : string) :
  process_declaration_period (VStr s) = Ok (VStr s)
  \/ exists n, -11 <= n <= 13
               /\ process_declaration_period (VStr s)
                  = Ok (VStr (PyStr.of_int n ++ " months - " ++ s)).
Proof.
  unfold process_declaration_period, try_except, period_body.
  destruct (PyStr.item (PyStr.split " to " s) 0) as [p0|e] eqn:H0; cbn [bind].
  2: { apply item_raises in H0. unfold caught_by. rewrite H0. left.
       reflexivity. }
  destruct (PyStr.item (PyStr.split " to " s) 1) as [p1|e] eqn:H1; cbn [bind].
  2: { apply item_raises in H1. unfold caught_by. rewrite H1. left.
       reflexivity. }
  destruct (PyStr.item (PyStr.split_ws p1) 0) as [w|e] eqn:H2; cbn [bind].
  2: { apply item_raises in H2. unfold caught_by. rewrite H2. left.
       reflexivity. }
  destruct (PyStr.index month_abbr (PyStr.strip p0)) as [a|e] eqn:Ha;
    cbn [bind].
  2: { apply index_from_raises in Ha. unfold caught_by. rewrite Ha. left.
       reflexivity. }
  destruct (PyStr.index month_abbr (PyStr.strip w)) as [b|e] eqn:Hb;
    cbn [bind].
  2: { apply index_from_raises in Hb. unfold caught_by. rewrite Hb. left.
       reflexivity. }
  right. exists (b - a + 1). split; [|reflexivity].
  apply index_from_bounds in Ha, Hb. simpl in Ha, Hb. lia.
Qed.

(** X2: the period formatter raises exactly on the values that are not
    text, and what it raises is an [AttributeError]. *)
Theorem period_raises_iff_not_text (v : value) :
  ((exists e, process_declaration_period v = Raise e)
   <-> (forall s, v <> VStr s))
  /\ (forall e, process_declaration_period v = Raise e ->
                exn_cls e = AttributeError).
Proof.
  destruct v as [|s|f|b|d].
  2: { destruct (period_text_never_raises s) as [v Hv]. rewrite Hv. split.
       - split; [intros [e H]; discriminate|].
         intros H. exfalso. apply (H s). reflexivity.
       - intros e H. discriminate. }
  all: split;
    [ split; [intros _ s; discriminate | intros _; eexists; reflexivity]
    | intros e H; injection H as <-; reflexivity ].
Qed.

(** X3: when the text has the two parts and an end word but one of the two
    tokens is not in the table of abbreviations, the text comes back as it
    is. *)
Theorem unknown_month_leaves_period_unchanged
    (s p0 p1 w : string) (rest ws : list string) :
  PyStr.split " to " s = p0 :: p1 :: rest ->
  PyStr.split_ws p1 = w :: ws ->
  is_raise (PyStr.index month_abbr (PyStr.strip p0)) = true
  \/ is_raise (PyStr.index month_abbr (PyStr.strip w)) = true ->
  process_declaration_period (VStr s) = Ok (VStr s).
Proof.
  intros Hs Hw Hbad.
  unfold process_declaration_period, try_except, period_body.
  rewrite Hs. cbn [PyStr.item nth_error bind]. rewrite Hw.
  cbn [PyStr.item nth_error bind].
  destruct (PyStr.index month_abbr (PyStr.strip p0)) as [a|e] eqn:Ha;
    cbn [bind].
  2: { apply index_from_raises in Ha. unfold caught_by. rewrite Ha.
       reflexivity. }
  destruct (PyStr.index month_abbr (PyStr.strip w)) as [b|e] eqn:Hb;
    cbn [bind].
  2: { apply index_from_raises in Hb. unfold caught_by. rewrite Hb.
       reflexivity. }
  destruct Hbad; discriminate.
Qed.

Lemma filter_of_all (p : ascii -> bool) (s : string) :
  PyStr.all p s = true -> PyStr.filter p s = s.
Proof.
  induction s as [|c s IH]; simpl; [reflexivity|].
  intros H. apply andb_true_iff in H as [Hc Hs]. rewrite Hc, (IH Hs).
  reflexivity.
Qed.

Lemma all_weaken (p q : ascii -> bool) (s : string) :
  (forall c, p c = true -> q c = true) ->
  PyStr.all p s = true -> PyStr.all q s = true.
Proof.
  intros Hpq. induction s as [|c s IH]; simpl; [reflexivity|].
  intros H. apply andb_true_iff in H as [Hc Hs].
  rewrite (Hpq _ Hc), (IH Hs). reflexivity.
Qed.

Lemma sanitized_is_safe (v : value) :
  PyStr.all safe_char (sanitize_filename v) = true.
Proof.
  unfold sanitize_filename.
  destruct (rstrip_suffix (PyStr.filter safe_char (py_str v))) as [t [Ht _]].
  pose proof (all_filter safe_char (py_str v)) as H.
  rewrite Ht, all_app in H. apply andb_true_iff in H as [H _]. exact H.
Qed.

(** X4: sanitizing is idempotent: a sanitized name, taken as text, is
    sanitized to itself. *)
Theorem sanitize_filename_idempotent (v : value) :
  sanitize_filename (VStr (sanitize_filename v)) = sanitize_filename v.
Proof.
  unfold sanitize_filename at 1. cbn [py_str].
  rewrite (filter_of_all _ _ (sanitized_is_safe v)).
  unfold sanitize_filename. apply rstrip_idempotent.
Qed.

Lemma safe_char_not_special (c : ascii) :
  safe_char c = true -> negb (path_special c) = true.
Proof.
  destruct c as [[] [] [] [] [] [] [] []]; vm_compute; congruence.
Qed.

(** X5: a sanitized name holds no character with a meaning in a path: no
    slash, backslash, colon, dot, quote or wildcard. *)
Theorem sanitized_name_has_no_path_character (v : value) :
  PyStr.all (fun c => negb (path_special c)) (sanitize_filename v) = true.
Proof.
  apply (all_weaken safe_char); [exact safe_char_not_special|].
  apply sanitized_is_safe.
Qed.

(** ** One row, further *)

(** X6: a row whose customer name (column B) is empty or otherwise reads
    as false is skipped once it has been read: a call that returns has
    opened and closed the source workbook and done nothing else (no copy of
    the template, no other workbook), returns no path and leaves the list of
    temporary files untouched; the turn of the batch loop ends as skipped
    with the report as it was. *)
Theorem nameless_row_is_skipped (source_file : worksheet)
    (template_file : string) (row_number : Z) (output_folder : string)
    (save_as_pdf keep_excel : bool) (temps temps' : option (list string))
    (acc : report) (log evs : list event) (o : option string) :
  truthy (customer_name (row_values source_file row_number)) = false ->
  create_declaration_for_row source_file template_file row_number
    output_folder save_as_pdf keep_excel temps log
  = ((log ++ evs)%list, Ok (o, temps')) ->
  o = None
  /\ temps' = temps
  /\ evs = [Printed (ProcessingRow row_number);
            Called OpenSource None; Called CloseSource None]
  /\ (temps = Some (temp_files_to_cleanup acc) ->
      process_row source_file template_file output_folder save_as_pdf
        keep_excel acc row_number log
      = ((log ++ evs ++ [Printed (RowSkipped row_number)])%list, Ok acc)).
Proof.
  intros Hname H.
  assert (Hshape : o = None /\ temps' = temps
                   /\ evs = [Printed (ProcessingRow row_number);
                             Called OpenSource None; Called CloseSource None]).
  { pose proof H as H'. unfold_row H'. read_source H' ltac:(discriminate).
    simpl in Hname. rewrite Hname in H'. simpl in H'.
    injection H' as Hlog <- <-. events_of Hlog. auto. }
  destruct Hshape as (-> & -> & Hevs).
  split; [reflexivity|]. split; [reflexivity|]. split; [exact Hevs|].
  intros ->. unfold process_row, catch, bindM. rewrite H.
  unfold path_given, say, ret. rewrite <- app_assoc.
  destruct acc. reflexivity.
Qed.

Lemma period_raise_class (v : value) (e : exn) :
  process_declaration_period v = Raise e -> exn_cls e = AttributeError.
Proof.
  destruct v as [|s|f|b|d]; intros H.
  2: { destruct (period_text_never_raises s) as [v Hv].
       rewrite Hv in H. discriminate. }
  all: injection H as <-; reflexivity.
Qed.

(** X7: the only exceptions that leave [create_declaration_for_row] are
    what opening or closing the source workbook raises while the row is
    read, the [AttributeError] of a period that is not text, and what the
    copy of the template raises; in each case the call stops there, before
    the temporary copy is opened. *)
Theorem row_raises_only_before_the_try (source_file : worksheet)
    (template_file : string) (row_number : Z) (output_folder : string)
    (save_as_pdf keep_excel : bool) (temps : option (list string))
    (log log' : list event) (e : exn) :
  create_declaration_for_row source_file template_file row_number
    output_folder save_as_pdf keep_excel temps log = (log', Raise e) ->
  let row := row_values source_file row_number in
  let temp := temp_excel_file output_folder row_number row in
  let first := [Printed (ProcessingRow row_number)] in
  let read := (first ++ [Called OpenSource None; Called CloseSource None])%list in
  (engine (log ++ first)%list OpenSource = Some e
   /\ log' = (log ++ first ++ [Called OpenSource (Some e)])%list)
  \/ (engine (log ++ first)%list OpenSource = None
      /\ engine (log ++ first ++ [Called OpenSource None])%list CloseSource
         = Some e
      /\ log' = (log ++ first ++ [Called OpenSource None;
                                  Called CloseSource (Some e)])%list)
  \/ (truthy (customer_name row) = true
      /\ process_declaration_period (declaration_period row) = Raise e
      /\ exn_cls e = AttributeError
      /\ log' = (log ++ read)%list)
  \/ (truthy (customer_name row) = true
      /\ engine (log ++ read)%list (CopyTemplate template_file temp) = Some e
      /\ log' = (log ++ read ++ [Called (CopyTemplate template_file temp)
                                   (Some e)])%list).
Proof.
  intros H row temp first read. subst first read. cbn [app].
  unfold_row H. fold row in H. fold temp in H. cbv beta iota zeta in H.
  destruct (engine (log ++ [Printed (ProcessingRow row_number)])%list
              OpenSource) as [e0|] eqn:Hopen; cbv beta iota in H.
  { injection H as <- <-. left. rewrite app_assoc_cons.
    split; reflexivity. }
  right. repeat rewrite app_assoc_cons in H.
  destruct (engine (log ++ [Printed (ProcessingRow row_number);
                            Called OpenSource None])%list CloseSource)
    as [e0|] eqn:Hclose; cbv beta iota in H.
  { injection H as <- <-. left. rewrite <- app_assoc.
    split; [reflexivity|]. split; reflexivity. }
  right. repeat rewrite <- app_assoc in H. cbn [app] in H.
  destruct (truthy (customer_name row)); cbn [negb] in H;
    cbv beta iota in H; [|discriminate].
  destruct (process_declaration_period (declaration_period row))
    as [tdp|e0] eqn:Hp; cbv beta iota in H.
  2: { injection H as <- <-. left.
       split; [reflexivity|]. split; [reflexivity|]. split; [|reflexivity].
       apply (period_raise_class _ _ Hp). }
  right. split; [reflexivity|]. fold temp in H.
  destruct (engine (log ++ [Printed (ProcessingRow row_number);
                            Called OpenSource None; Called CloseSource None])%list
              (CopyTemplate template_file temp))
    as [e0|] eqn:Hcopy; cbv beta iota in H.
  - injection H as <- <-. rewrite <- app_assoc. split; reflexivity.
  - simpl in H. destruct save_as_pdf, keep_excel; simpl in H.
    all: split_on_world H; discriminate.
Qed.

(** X8: a row that returns a path returns the PDF path exactly when the
    export returned and the workbook was then closed without an exception,
    and the editable path in every other case. *)
Theorem returned_path_follows_export_and_close (source_file : worksheet)
    (template_file : string) (row_number : Z) (output_folder : string)
    (save_as_pdf keep_excel : bool) (temps temps' : option (list string))
    (log evs : list event) (p : string) :
  create_declaration_for_row source_file template_file row_number
    output_folder save_as_pdf keep_excel temps log
  = ((log ++ evs)%list, Ok (Some p, temps')) ->
  let row := row_values source_file row_number in
  p = if existsb export_returned evs && existsb close_returned evs
      then pdf_output_file output_folder row
      else excel_output_file output_folder row.
Proof.
  intros H row. unfold_row H. fold row in H.
  read_source H ltac:(discriminate).
  destruct (truthy _); simpl in H; [|discriminate].
  destruct (process_declaration_period _); [|discriminate].
  split_on_world H; try discriminate.
  all: destruct save_as_pdf, keep_excel; simpl in H.
  all: split_on_world H.
  all: injection H as Hlog <- _.
  all: events_of Hlog; subst evs.
  all: simpl; rewrite ?existsb_app; simpl.
  all: rewrite ?(existsb_none _ _ _ fill_call_not_export_returned Hfe).
  all: rewrite ?(existsb_none _ _ _ fill_call_not_close_returned Hfe).
  all: simpl; reflexivity.
Qed.

Lemma pdf_is_not_excel_output (output_folder : string) (row : row_data) :
  pdf_output_file output_folder row <> excel_output_file output_folder row.
Proof.
  unfold pdf_output_file, excel_output_file, os_path_join, output_name.
  intros H. do 2 apply string_app_inv_head in H.
  apply (string_app_inv_head "Renewable_Fuel_Declaration - ") in H.
  apply string_app_inv_head in H.
  apply (string_app_inv_head " - ") in H.
  apply string_app_inv_head in H.
  apply (string_app_inv_head " - ") in H.
  apply string_app_inv_head in H. discriminate H.
Qed.

(** X9: when the path a row returns is its PDF path, the export wrote a
    file at that path during the call. *)
Theorem returned_pdf_was_written (source_file : worksheet)
    (template_file : string) (row_number : Z) (output_folder : string)
    (save_as_pdf keep_excel : bool) (temps temps' : option (list string))
    (log evs : list event) :
  let pdf :=
    pdf_output_file output_folder (row_values source_file row_number) in
  create_declaration_for_row source_file template_file row_number
    output_folder save_as_pdf keep_excel temps log
  = ((log ++ evs)%list, Ok (Some pdf, temps')) ->
  In pdf (files_written evs).
Proof.
  intros pdf H.
  pose proof (pdf_is_not_excel_output output_folder
                (row_values source_file row_number)) as Hne.
  fold pdf in Hne. unfold_row H.
  read_source H ltac:(discriminate).
  destruct (truthy _); simpl in H; [|discriminate].
  destruct (process_declaration_period _); [|discriminate].
  split_on_world H; try discriminate.
  all: destruct save_as_pdf, keep_excel; simpl in H.
  all: split_on_world H.
  all: pose proof (f_equal fst H) as Hlog; pose proof (f_equal snd H) as Hres.
  all: cbn [fst snd] in Hlog, Hres; clear H.
  all: try (exfalso; apply Hne; injection Hres as Hp _; symmetry; exact Hp).
  all: events_of Hlog; subst evs.
  all: apply in_flat_map; eexists.
  all: split; [do 4 right; apply in_or_app; right; left; reflexivity|].
  all: left; reflexivity.
Qed.

(** X10: with [keep_excel] on, a row whose workbook is closed without an
    exception has made exactly one save, a [save_as] to the editable output
    path, which is therefore among the files written; the temporary copy is
    not registered, whatever the export did. *)
Theorem keep_excel_saves_editable_copy (source_file : worksheet)
    (template_file : string) (row_number : Z) (output_folder : string)
    (save_as_pdf : bool) (temps : option (list string))
    (log evs : list event)
    (res : result (option string * option (list string))) :
  create_declaration_for_row source_file template_file row_number
    output_folder save_as_pdf true temps log = ((log ++ evs)%list, res) ->
  existsb close_returned evs = true ->
  let row := row_values source_file row_number in
  flat_map save_target evs = [excel_output_file output_folder row]
  /\ In (excel_output_file output_folder row) (files_written evs)
  /\ exists p, res = Ok (Some p, temps).
Proof.
  intros H Hx row. unfold_row H. fold row in H.
  read_source H ltac:(injection H as Hlog _; events_of Hlog; subst evs; discriminate).
  destruct (truthy _); simpl in H;
    [|injection H as Hlog _; events_of Hlog; subst evs; discriminate].
  destruct (process_declaration_period _);
    [|injection H as Hlog _; events_of Hlog; subst evs; discriminate].
  destruct save_as_pdf; simpl in H.
  all: split_on_world H.
  all: injection H as Hlog <-.
  all: events_of Hlog; subst evs.
  all: try quiet Hfe.
  all: simpl in Hx; rewrite ?existsb_app in Hx; simpl in Hx.
  all: repeat match goal with
       | E : existsb _ _ = false |- _ => rewrite ?E in Hx; clear E
       end.
  all: try discriminate Hx.
  all: destruct temps; simpl.
  all: rewrite ?flat_map_app, ?files_written_app; simpl.
  all: repeat match goal with
       | E : flat_map _ _ = [] |- _ => rewrite ?E; clear E
       | E : files_written _ = [] |- _ => rewrite ?E; clear E
       end; simpl.
  all: split; [reflexivity|]; split; [|eexists; reflexivity].
  all: simpl; auto.
Qed.

Lemma write_cells_books (book : string)
    (update_data : list (string * value)) (log log' : list event)
    (r : result unit) :
  write_cells book update_data log = (log', r) ->
  exists evs, (log' = log ++ evs)%list
              /\ forallb is_fill_call evs = true
              /\ Forall (fun b => b = book) (flat_map book_of evs).
Proof.
  revert log. induction update_data as [|[addr v] rest IH]; intros log H.
  - injection H as <- _. exists []. rewrite app_nil_r.
    repeat split; constructor.
  - simpl in H. unfold bindM, do_call in H.
    destruct (engine log (WriteCell book addr v)) as [e|].
    + injection H as <- _. exists [Called (WriteCell book addr v) (Some e)].
      repeat split; repeat constructor.
    + apply IH in H as [evs (-> & Hf & Hb)].
      exists (Called (WriteCell book addr v) None :: evs).
      rewrite app_assoc_cons. repeat split; [exact Hf|].
      simpl. constructor; [reflexivity|exact Hb].
Qed.

Lemma fill_template_books (book : string) (row : row_data) (tdp : value)
    (log log' : list event) (r : result unit) :
  fill_template book row tdp log = (log', r) ->
  exists evs, (log' = log ++ evs)%list
              /\ forallb is_fill_call evs = true
              /\ Forall (fun b => b = book) (flat_map book_of evs).
Proof.
  unfold fill_template, open_and_prepare, bindM, do_call, lift, ret.
  destruct (engine log (OpenBook book)) as [e|].
  - intros H. injection H as <- _. exists [Called (OpenBook book) (Some e)].
    repeat split; repeat constructor.
  - destruct (rounded_kg (volume_of_fuel_supplied row)) as [kg|e].
    + intros H. apply write_cells_books in H as [evs (-> & Hf & Hb)].
      exists (Called (OpenBook book) None :: evs).
      rewrite app_assoc_cons. repeat split; [exact Hf|].
      simpl. constructor; [reflexivity|exact Hb].
    + intros H. injection H as <- _. exists [Called (OpenBook book) None].
      repeat split; repeat constructor.
Qed.

Ltac split_on_world_books H :=
  repeat match type of H with
  | context [match engine ?l ?c with _ => _ end] =>
      destruct (engine l c) eqn:?; simpl in H
  | context [fill_template ?b ?r ?t ?l] =>
      let log1 := fresh "log1" in
      let Hfill := fresh "Hfill" in
      let fe := fresh "fe" in
      let Hfe := fresh "Hfe" in
      let Hbk := fresh "Hbk" in
      destruct (fill_template b r t l) as [log1 [[]|?]] eqn:Hfill;
      apply fill_template_books in Hfill as [fe (-> & Hfe & Hbk)];
      simpl in H
  end.

Lemma fill_calls_no_source (fe : list event) :
  forallb is_fill_call fe = true -> flat_map source_call fe = [].
Proof.
  induction fe as [|ev fe IH]; [reflexivity|].
  cbn [forallb flat_map]. intros H. apply andb_true_iff in H as [Hev Hfe].
  rewrite (IH Hfe), app_nil_r.
  destruct ev as [[] ?| | |]; simpl in Hev |- *; congruence.
Qed.

(** X11: whatever happens, a row works on its own files only. The source
    workbook is opened once to read the row and closed, and is not touched
    again; every other workbook call is made on the temporary copy of the
    row, every file written is the temporary copy, the PDF output or the
    editable output of the row, and nothing is removed. *)
Theorem row_touches_only_its_own_files (source_file : worksheet)
    (template_file : string) (row_number : Z) (output_folder : string)
    (save_as_pdf keep_excel : bool) (temps : option (list string))
    (log evs : list event)
    (res : result (option string * option (list string))) :
  create_declaration_for_row source_file template_file row_number
    output_folder save_as_pdf keep_excel temps log
  = ((log ++ evs)%list, res) ->
  let row := row_values source_file row_number in
  let temp := temp_excel_file output_folder row_number row in
  Forall (fun b => b = temp) (flat_map book_of evs)
  /\ Forall (fun f => f = temp
                      \/ f = pdf_output_file output_folder row
                      \/ f = excel_output_file output_folder row)
       (files_written evs)
  /\ existsb is_remove evs = false
  /\ (flat_map source_call evs = [OpenSource]
      \/ flat_map source_call evs = [OpenSource; CloseSource]).
Proof.
  intros H row temp. unfold_row H. fold row in H. fold temp in H.
  read_source H ltac:(injection H as Hlog _; events_of Hlog; subst evs;
                      simpl; repeat split; auto; constructor).
  destruct (truthy _); simpl in H;
    [|injection H as Hlog _; events_of Hlog; subst evs;
      simpl; repeat split; auto; constructor].
  destruct (process_declaration_period _);
    [|injection H as Hlog _; events_of Hlog; subst evs;
      simpl; repeat split; auto; constructor].
  destruct save_as_pdf, keep_excel; simpl in H.
  all: split_on_world_books H.
  all: injection H as Hlog _.
  all: events_of Hlog; subst evs.
  all: try (pose proof (fill_calls_no_source _ Hfe) as Hsrc).
  all: try quiet Hfe.
  all: simpl; rewrite ?existsb_app, ?flat_map_app, ?files_written_app.
  all: repeat match goal with
       | E : existsb _ _ = false |- _ => rewrite ?E; clear E
       | E : files_written _ = [] |- _ => rewrite ?E; clear E
       | E : flat_map source_call _ = [] |- _ => rewrite ?E; clear E
       end; simpl.
  all: repeat split; try reflexivity.
  all: repeat first [ apply Forall_app; split
                    | apply Forall_cons
                    | apply Forall_nil
                    | assumption
                    | reflexivity
                    | left; reflexivity
                    | right; reflexivity
                    | right; left; reflexivity
                    | right; right; reflexivity ].
Qed.

Lemma write_cells_returns (book : string)
    (update_data : list (string * value)) (log log' : list event) :
  write_cells book update_data log = (log', Ok tt) ->
  (log' = log ++ map (fun av => Called (WriteCell book (fst av) (snd av)) None)
                   update_data)%list.
Proof.
  revert log. induction update_data as [|[addr v] rest IH]; intros log H.
  - injection H as <-. simpl. rewrite app_nil_r. reflexivity.
  - simpl in H. unfold bindM, do_call in H.
    destruct (engine log (WriteCell book addr v)) as [e|]; [discriminate|].
    apply IH in H. rewrite H, app_assoc_cons. reflexivity.
Qed.

(** X12: a fill that goes through has opened the copy and then written
    each of the fifteen cells of the template once, in the order of the
    script: the period cell Q7 gets the formatted period, the issue-date
    cell Q8 the date of the day, and the volume cell D13 the rounded volume
    followed by [" kg"], which must therefore have been computable. *)
Theorem fill_writes_the_fifteen_cells (book : string) (row : row_data)
    (total_dec_period : value) (log log' : list event) :
  fill_template book row total_dec_period log = (log', Ok tt) ->
  exists kg,
    rounded_kg (volume_of_fuel_supplied row) = Ok kg
    /\ (log' = log ++ fill_calls book
          [ ("D5", customer_name row);
            ("Q5", customer_address row);
            ("D8", declaration_number row);
            ("Q7", total_dec_period);
            ("Q8", date_dec_issued row);
            ("D12", renewable_percentage row);
            ("D13", VStr kg);
            ("U11", ghg_emissions_intensity row);
            ("D15", production_process row);
            ("D17", country_of_production row);
            ("D19", distribution_of_fuel row);
            ("D26", feedstock row);
            ("D29", country_of_origin row);
            ("D32", traceability_from_origin row);
            ("D34", sc_voluntary_sustain_scheme row) ])%list.
Proof.
  unfold fill_template, open_and_prepare, bindM, do_call, lift, ret.
  destruct (engine log (OpenBook book)) as [e|]; [discriminate|].
  destruct (rounded_kg (volume_of_fuel_supplied row)) as [kg|e];
    [|discriminate].
  intros H. apply write_cells_returns in H. exists kg.
  split; [reflexivity|]. rewrite H, app_assoc_cons. reflexivity.
Qed.

Lemma uint_text_digits (d : Decimal.uint) :
  PyStr.all sign_or_digit (NilEmpty.string_of_uint d) = true.
Proof. induction d; simpl; auto. Qed.

Lemma of_int_digits (n : Z) : PyStr.all sign_or_digit (PyStr.of_int n) = true.
Proof.
  unfold PyStr.of_int, NilZero.string_of_int, NilZero.string_of_uint.
  destruct (Z.to_int n) as [d|d]; destruct d; simpl;
    try reflexivity; apply uint_text_digits.
Qed.

Lemma of_int_injective (a b : Z) : PyStr.of_int a = PyStr.of_int b -> a = b.
Proof.
  unfold PyStr.of_int. intros H.
  assert (Hnil : forall n, Z.to_int n <> Decimal.Pos Decimal.Nil
                           /\ Z.to_int n <> Decimal.Neg Decimal.Nil).
  { intros [|p|p]; simpl; split; try discriminate.
    all: intros E; injection E as E;
      apply (DecimalPos.Unsigned.to_uint_nonnil p E). }
  apply (f_equal NilZero.int_of_string) in H.
  rewrite !NilZero.isi in H by apply Hnil.
  injection H as H. apply DecimalZ.to_int_inj. exact H.
Qed.

Lemma numeral_ends_at_separator (p : ascii -> bool) (sep : ascii)
    (a b x y : string) :
  p sep = false ->
  PyStr.all p a = true -> PyStr.all p b = true ->
  a ++ String sep x = b ++ String sep y -> a = b.
Proof.
  intros Hsep. revert b. induction a as [|c a IH]; intros [|d b] Ha Hb H.
  - reflexivity.
  - simpl in H, Hb. injection H as <- _.
    rewrite Hsep in Hb. discriminate Hb.
  - simpl in H, Ha. injection H as -> _.
    rewrite Hsep in Ha. discriminate Ha.
  - simpl in H, Ha, Hb. injection H as <- H.
    apply andb_true_iff in Ha as [_ Ha]. apply andb_true_iff in Hb as [_ Hb].
    rewrite (IH b Ha Hb H). reflexivity.
Qed.

(** X13: the path of the temporary copy tells the row: two rows of a run
    with different numbers never share a temporary file, whatever their
    customer names. *)
Theorem temp_path_tells_the_row (output_folder : string)
    (row_number row_number' : Z) (row row' : row_data) :
  row_number <> row_number' ->
  temp_excel_file output_folder row_number row
  <> temp_excel_file output_folder row_number' row'.
Proof.
  unfold temp_excel_file, os_path_join, temp_name. intros Hne H. apply Hne.
  do 2 apply string_app_inv_head in H.
  apply (string_app_inv_head "temp_") in H.
  apply of_int_injective.
  apply (numeral_ends_at_separator sign_or_digit "_" _ _ _ _
           eq_refl (of_int_digits _) (of_int_digits _) H).
Qed.

(** ** The scan, further *)

Lemma scan_loop_returns (ws : worksheet) (todo acc rows : list Z) :
  scan_loop ws acc todo = Ok rows ->
  rows = (acc ++ List.filter (eligible ws) todo)%list.
Proof.
  revert acc. induction todo as [|row todo IH]; intros acc H.
  - injection H as <-. simpl. rewrite app_nil_r. reflexivity.
  - cbn [scan_loop] in H. cbn [List.filter].
    unfold scan_row, eligible in H |- *.
    destruct (ws_cell ws "E" row) as [|s|f|b|d]; simpl in H |- *.
    5: discriminate H.
    + apply IH, H.
    + destruct (float_of_text s); simpl in H; [|apply IH, H].
      destruct (_ && _); simpl in H; apply IH in H;
        [rewrite <- app_assoc in H|]; exact H.
    + destruct (_ && _); simpl in H; apply IH in H;
        [rewrite <- app_assoc in H|]; exact H.
    + destruct (_ && _); simpl in H; apply IH in H;
        [rewrite <- app_assoc in H|]; exact H.
Qed.

Lemma py_range_sorted (lo hi : Z) : StronglySorted Z.lt (py_range lo hi).
Proof.
  unfold py_range. generalize (Z.to_nat (hi - lo)) as n.
  intros n. generalize 0%nat as k. induction n as [|n IH]; intros k; simpl.
  - constructor.
  - constructor; [apply IH|].
    apply Forall_forall. intros x Hx. apply in_map_iff in Hx as [i [<- Hi]].
    apply in_seq in Hi. lia.
Qed.

Lemma filter_sorted (f : Z -> bool) (l : list Z) :
  StronglySorted Z.lt l -> StronglySorted Z.lt (List.filter f l).
Proof.
  induction 1 as [|a l Hl IH Ha]; simpl; [constructor|].
  destruct (f a); [|exact IH].
  constructor; [exact IH|].
  apply Forall_forall. intros x Hx. apply filter_In in Hx as [Hx _].
  rewrite Forall_forall in Ha. apply Ha, Hx.
Qed.

(** X14: whenever the scan returns, what it returns is the rows from 2 to
    the last row that pass the test of the loop (fraction cell converting
    to a float of at least 0.01, name cell in column A reading as true),
    each once and in increasing order; a sheet whose last row is below 2
    gives no row. *)
Theorem scan_returns_the_eligible_rows (ws : worksheet) (rows : list Z) :
  scan_rows ws = Ok rows ->
  rows = List.filter (eligible ws) (py_range 2 (ws_end_down_A1 ws + 1))
  /\ (forall r, In r rows
                <-> 2 <= r <= ws_end_down_A1 ws /\ eligible ws r = true)
  /\ StronglySorted Z.lt rows
  /\ (ws_end_down_A1 ws < 2 -> rows = []).
Proof.
  intros H. unfold scan_rows in H. apply scan_loop_returns in H.
  simpl in H. subst rows. split; [reflexivity|]. split; [|split].
  - intros r. rewrite filter_In, in_py_range. split.
    + intros [Hr He]. split; [lia|exact He].
    + intros [Hr He]. split; [lia|exact He].
  - apply filter_sorted, py_range_sorted.
  - intros Hlast. unfold py_range.
    replace (Z.to_nat (ws_end_down_A1 ws + 1 - 2)) with 0%nat by lia.
    reflexivity.
Qed.

(** ** The cleaner, further *)






Lemma cleanup_loop_unlocked (temp_files : list string) (log : list event) :
  (forall lg p, path_exists lg p = true) ->
  (forall lg p, engine lg (Remove p) = None) ->
  cleanup_loop temp_files log
  = ((log ++ flat_map removal temp_files)%list, Ok tt).
Proof.
  intros Hex Hrm. revert log.
  induction temp_files as [|path rest IH]; intros log.
  - simpl. rewrite app_nil_r. reflexivity.
  - cbn [cleanup_loop flat_map]. unfold bindM at 1.
    cbn [delete_attempts]. unfold bindM at 1.
    unfold delete_attempt, catch, bindM, ask_exists, do_call, say, ret.
    rewrite Hex, Hrm. rewrite IH.
    repeat rewrite <- app_assoc. reflexivity.
Qed.

(** X16: where files exist and can be removed, the cleaner removes each
    path of a non-empty list once, in the order of the list, at the first
    attempt and without sleeping. *)
Theorem unlocked_files_are_removed_at_once (temp_files : list string)
    (log : list event) :
  (forall lg p, path_exists lg p = true) ->
  (forall lg p, engine lg (Remove p) = None) ->
  temp_files <> [] ->
  cleanup_temp_files (Some temp_files) log
  = ((log ++ Printed (Attempting (Z.of_nat (List.length temp_files)))
          :: flat_map removal temp_files)%list,
     Ok tt).
Proof.
  intros Hex Hrm Hne. destruct temp_files as [|path rest]; [congruence|].
  unfold cleanup_temp_files, bindM, say.
  rewrite (cleanup_loop_unlocked _ _ Hex Hrm), <- app_assoc. reflexivity.
Qed.

(** ** The batch, further *)

Lemma no_mark_no_skip (evs : list event) :
  flat_map row_mark evs = [] -> flat_map row_skipped evs = [].
Proof.
  induction evs as [|ev evs IH]; [reflexivity|].
  cbn [flat_map]. intros H. apply app_eq_nil in H as [Hev Hevs].
  rewrite (IH Hevs), app_nil_r.
  destruct ev as [| | |[]]; simpl in Hev |- *; congruence.
Qed.

Lemma process_row_accounts (source_file : worksheet)
    (template_file output_folder : string) (save_as_pdf keep_excel : bool)
    (acc : report) (row_num : Z) (log : list event) :
  exists evs rep,
    process_row source_file template_file output_folder save_as_pdf
      keep_excel acc row_num log = ((log ++ evs)%list, Ok rep)
    /\ (List.length (created_files rep) + List.length (error_files rep)
        + List.length (flat_map row_skipped evs)
        = List.length (created_files acc) + List.length (error_files acc)
          + 1)%nat.
Proof.
  unfold process_row, catch, bindM.
  destruct (create_declaration_for_row _ _ _ _ _ _ _ _)
    as [log' [[output_file temps]|e]] eqn:H.
  all: apply create_declaration_log in H as [evs [-> (_ & Hm & _)]].
  all: apply no_mark_no_skip in Hm.
  1: destruct output_file as [p|]; unfold path_given;
     [destruct (negb (p =? EmptyString)%string)|].
  all: unfold say, ret; rewrite <- app_assoc.
  all: eexists; eexists; (split; [reflexivity|]).
  all: rewrite flat_map_app, Hm; cbn [error_files created_files].
  all: rewrite ?length_app; simpl; lia.
Qed.

(** X17: the batch loop accounts for every row exactly once: after the
    loop the created files, the error entries and the turns that ended as
    skipped have grown by as many as there are rows. *)
Theorem batch_accounts_for_every_row (source_file : worksheet)
    (template_file output_folder : string) (save_as_pdf keep_excel : bool)
    (rows : list Z) (acc : report) (log : list event) :
  exists evs rep,
    process_rows source_file template_file output_folder save_as_pdf
      keep_excel acc rows log = ((log ++ evs)%list, Ok rep)
    /\ (List.length (created_files rep) + List.length (error_files rep)
        + List.length (flat_map row_skipped evs)
        = List.length (created_files acc) + List.length (error_files acc)
          + List.length rows)%nat.
Proof.
  revert acc log. induction rows as [|row rest IH]; intros acc log.
  - exists [], acc. simpl. rewrite app_nil_r. split; [reflexivity|lia].
  - cbn [process_rows]. unfold bindM.
    destruct (process_row_accounts source_file template_file output_folder
                save_as_pdf keep_excel acc row log)
      as [evs1 [acc1 (Hrun1 & Hn1)]].
    rewrite Hrun1.
    destruct (IH acc1 (log ++ evs1)%list) as [evs2 [rep (Hrun2 & Hn2)]].
    exists (evs1 ++ evs2)%list, rep. rewrite Hrun2, app_assoc.
    split; [reflexivity|].
    rewrite flat_map_app, length_app. cbn [List.length]. lia.
Qed.

Lemma process_rows_temps (source_file : worksheet)
    (template_file output_folder : string) (save_as_pdf keep_excel : bool)
    (rows : list Z) (acc rep : report) (log log' : list event) :
  process_rows source_file template_file output_folder save_as_pdf
    keep_excel acc rows log = (log', Ok rep) ->
  exists sub,
    temp_files_to_cleanup rep
    = (temp_files_to_cleanup acc
       ++ map (fun r => temp_excel_file output_folder r
                          (row_values source_file r)) sub)%list
    /\ (forall r, In r sub -> In r rows)
    /\ (NoDup rows -> NoDup sub).
Proof.
  revert acc log. induction rows as [|row rest IH]; intros acc log H.
  - injection H as _ <-. exists []. simpl. rewrite app_nil_r.
    split; [reflexivity|]. split; [intros r []|intros _; constructor].
  - cbn [process_rows] in H. unfold bindM in H.
    destruct (process_row _ _ _ _ _ _ _ _) as [log1 [acc1|e]] eqn:Hrow;
      [|discriminate].
    apply IH in H as [sub (Ht & Hin & Hnd)].
    assert (Hacc1 :
      temp_files_to_cleanup acc1 = temp_files_to_cleanup acc
      \/ temp_files_to_cleanup acc1
         = (temp_files_to_cleanup acc
            ++ [temp_excel_file output_folder row
                  (row_values source_file row)])%list).
    { clear - Hrow. unfold process_row, catch, bindM in Hrow.
      destruct (create_declaration_for_row _ _ _ _ _ _ _ _)
        as [log2 [[o temps]|e]] eqn:Hc.
      - apply create_registers_at_most_its_temp in Hc.
        destruct (path_given o); unfold say, ret in Hrow;
          injection Hrow as _ <-; cbn [temp_files_to_cleanup];
          destruct Hc as [-> | ->]; auto.
      - unfold say, ret in Hrow. injection Hrow as _ <-. auto. }
    destruct Hacc1 as [E|E]; rewrite E in Ht.
    + exists sub. split; [exact Ht|]. split.
      * intros r Hr. right. apply Hin, Hr.
      * intros Hn. apply Hnd. inversion Hn. assumption.
    + exists (row :: sub). split; [rewrite Ht, <- app_assoc; reflexivity|].
      split.
      * intros r [<-|Hr]; [left; reflexivity|right; apply Hin, Hr].
      * intros Hn. inversion Hn as [|x xs Hx Hxs]. subst.
        constructor; [|apply Hnd, Hxs].
        intros Hr. apply Hx, Hin, Hr.
Qed.

Lemma sorted_rows_differ (l : list Z) : StronglySorted Z.lt l -> NoDup l.
Proof.
  induction 1 as [|a l Hl IH Ha]; constructor; [|exact IH].
  intros Hin. rewrite Forall_forall in Ha. specialize (Ha a Hin). lia.
Qed.

Lemma temp_of_row_injective (source_file : worksheet)
    (output_folder : string) (sub : list Z) :
  NoDup sub ->
  NoDup (map (fun r => temp_excel_file output_folder r
                         (row_values source_file r)) sub).
Proof.
  induction 1 as [|r sub Hr Hn IH]; simpl; constructor; [|exact IH].
  intros Hin. apply in_map_iff in Hin as [r' [E Hr']].
  unfold temp_excel_file, os_path_join, temp_name in E.
  do 2 apply string_app_inv_head in E.
  apply (string_app_inv_head "temp_") in E.
  apply (numeral_ends_at_separator sign_or_digit "_" _ _ _ _
           eq_refl (of_int_digits _) (of_int_digits _)) in E.
  apply of_int_injective in E. subst r'. exact (Hr Hr').
Qed.

(** X18: in a batch that returns, the list handed to the cleaner names
    each file once, and each of its entries is the temporary copy of a row
    that the scan found eligible. *)
Theorem cleaner_gets_each_temp_once (source_file : worksheet)
    (template_file output_folder : string) (save_as_pdf keep_excel : bool)
    (log log' : list event) (rep : report) :
  process_all_supply_blend_rows source_file template_file output_folder
    save_as_pdf keep_excel log = (log', Ok rep) ->
  NoDup (temp_files_to_cleanup rep)
  /\ forall t, In t (temp_files_to_cleanup rep) ->
       exists r, 2 <= r <= ws_end_down_A1 source_file
                 /\ eligible source_file r = true
                 /\ t = temp_excel_file output_folder r
                          (row_values source_file r).
Proof.
  unfold process_all_supply_blend_rows, bindM, lift, ret, do_call.
  intros H.
  destruct (engine log OpenSource); [discriminate|].
  destruct (scan_rows source_file) as [rows|e] eqn:Hscan; [|discriminate].
  destruct (engine _ CloseSource); [discriminate|].
  destruct (process_rows _ _ _ _ _ _ _ _) as [log1 [rep1|e]] eqn:Hrows;
    [|discriminate].
  destruct (cleanup_temp_files _ _) as [log2 [[]|e]]; [|discriminate].
  injection H as _ <-.
  unfold scan_rows in Hscan. apply scan_loop_returns in Hscan.
  cbn [app] in Hscan.
  apply process_rows_temps in Hrows as [sub (Ht & Hin & Hnd)].
  cbn [temp_files_to_cleanup empty_report app] in Ht. rewrite Ht. split.
  - apply temp_of_row_injective, Hnd. subst rows.
    apply sorted_rows_differ, filter_sorted, py_range_sorted.
  - intros t Hin_t. apply in_map_iff in Hin_t as [r [<- Hr]].
    exists r. apply Hin in Hr. subst rows.
    apply filter_In in Hr as [Hr He]. apply in_py_range in Hr.
    split; [lia|]. split; [exact He|reflexivity].
Qed.

End Script.

(* ===================================================================== *)
(** * Worked examples *)

Lemma empty_token_is_month_zero_example :
  nth_error month_abbr 0 = Some EmptyString
  /\ PyStr.index month_abbr EmptyString = Ok 0
  /\ process_declaration_period (VStr " to Mar 2025")
     = Ok (VStr "4 months -  to Mar 2025").
Proof.
  destruct (empty_token_is_month_zero " to Mar 2025" EmptyString "Mar 2025"
              [] eq_refl) as (Htable & Hzero & Hstart & _ & _).
  split; [exact Htable|]. split; [exact Hzero|].
  apply (Hstart "Mar" ["2025"] 3); reflexivity.
Defined.

(** Nothing after the separator: there is no end token to look up, and the
    input comes back as it was, not with a span counted from ordinal 0. *)
Lemma missing_end_token_is_not_month_zero :
  process_declaration_period (VStr "Jan to ") = Ok (VStr "Jan to ")
  /\ process_declaration_period (VStr "Jan to ")
     <> Ok (VStr "0 months - Jan to ").
Proof. split; [reflexivity|]. vm_compute. discriminate. Qed.

Lemma sanitize_obrien_single_space :
  sanitize_filename sample_repr (VStr "O'Brien & Sons, Ltd.")
  <> "OBrien Sons Ltd".
Proof. vm_compute. discriminate. Qed.

Example sanitize_float_cell :
  sanitize_filename sample_repr (VFloat 12%float) = "00".
Proof. reflexivity. Qed.

(** *** The scan *)

Example scan_sample_sheet : scan_rows sample_parse sample_sheet = Ok [2; 3; 4].
Proof. vm_compute. reflexivity. Qed.

Lemma scan_raises_on_date_cell_example :
  exists e, scan_rows sample_parse sheet_with_date = Raise e
            /\ exn_cls e = TypeError.
Proof.
  apply (scan_raises_on_date_cell sample_parse sheet_with_date 3
           "2025-03-31 00:00:00"); [simpl; lia | reflexivity].
Defined.

(** *** One row *)

Local Abbreviation create_row world :=
  (create_declaration_for_row sample_repr sample_round "04/11/2026" world
     sample_sep sample_sheet "template.xlsm").

Local Abbreviation row_of n := (row_values "04/11/2026" sample_sheet n).

Example complete_row_gets_its_pdf :
  let temp := "out/temp_2_Renewable_Fuel_Declaration - Acme Ltd.xlsm" in
  let pdf :=
    "out/Renewable_Fuel_Declaration - C-100 - Jan to Mar 2025 - Acme Ltd.pdf" in
  create_row world_ok 2 "out" true false (Some []) []
  = ([Printed (ProcessingRow 2);
      Called OpenSource None; Called CloseSource None;
      Called (CopyTemplate "template.xlsm" temp) None;
      Called (OpenBook temp) None]
     ++ map (fun '(addr, v) => Called (WriteCell temp addr v) None)
          [("D5", VStr "Acme Ltd"); ("Q5", VStr "1 High Street");
           ("D8", VStr "D-1"); ("Q7", VStr "3 months - Jan to Mar 2025");
           ("Q8", VStr "04/11/2026"); ("D12", VFloat 0.5%float);
           ("D13", VStr "0.0 kg"); ("U11", VNone); ("D15", VNone);
           ("D17", VNone); ("D19", VNone); ("D26", VNone);
           ("D29", VNone); ("D32", VNone); ("D34", VNone)]
     ++ [Called (ExportPdf temp pdf) None; Called (CloseBook temp) None],
     Ok (Some pdf, Some [temp]))%list.
Proof. vm_compute. reflexivity. Qed.

Lemma export_failure_example :
  let run := create_row world_no_pdf 2 "out" true false (Some []) [] in
  existsb export_raised (fst run) = true
  /\ snd run
     = Ok (Some "out/Renewable_Fuel_Declaration - C-100 - Jan to Mar 2025 - Acme Ltd.xlsm",
           Some [])
  /\ flat_map save_target (fst run)
     = ["out/temp_2_Renewable_Fuel_Declaration - Acme Ltd.xlsm"]
  /\ ~ In "out/Renewable_Fuel_Declaration - C-100 - Jan to Mar 2025 - Acme Ltd.xlsm"
         (files_written (fst run)).
Proof.
  intros run.
  assert (Hx : existsb export_raised (fst run) = true)
    by (vm_compute; reflexivity).
  assert (H : create_row world_no_pdf 2 "out" true false (Some []) []
              = (([] ++ fst run)%list, snd run))
    by (vm_compute; reflexivity).
  split; [exact Hx|].
  exact (export_failure_saves_in_place sample_repr sample_round "04/11/2026"
           world_no_pdf sample_sep sample_sheet "template.xlsm" 2 "out"
           (Some []) [] (fst run) (snd run) H Hx).
Defined.


Lemma field_write_failure_example :
  let temp := "out/temp_4_Renewable_Fuel_Declaration - Gamma  Co.xlsm" in
  exists p,
    create_row world_ok 4 "out" true false (Some []) []
    = ([Printed (ProcessingRow 4);
        Called OpenSource None; Called CloseSource None;
        Called (CopyTemplate "template.xlsm" temp) None;
        Called (OpenBook temp) None],
       Ok (Some p, Some [])).
Proof.
  intros temp.
  refine (proj1 (field_write_failure_is_swallowed sample_repr sample_round
                   "04/11/2026" world_ok sample_sep sample_sheet
                   "template.xlsm" 4 "out" true false (Some []) []
                   [Printed (ProcessingRow 4);
                    Called OpenSource None; Called CloseSource None;
                    Called (CopyTemplate "template.xlsm" temp) None;
                    Called (OpenBook temp) None]
                   (VStr "3 months - Apr to Jun 2025")
                   (Exn TypeError
                      "type NoneType doesn't define __round__ method")
                   _ _ _ _ _)); reflexivity.
Defined.

Lemma field_write_failure_not_surfaced :
  rounded_kg sample_repr sample_round (volume_of_fuel_supplied (row_of 4))
  = Raise (Exn TypeError "type NoneType doesn't define __round__ method")
  /\ snd (create_row world_ok 4 "out" true false (Some []) [])
     = Ok (Some "out/Renewable_Fuel_Declaration - C-102 - Apr to Jun 2025 - Gamma  Co.xlsm",
           Some [])
  /\ snd (process_all_supply_blend_rows sample_repr sample_round sample_parse
            "04/11/2026" world_ok files_stay sample_sep sample_sheet
            "template.xlsm" "out" true false [])
     = Ok {| created_files :=
               ["out/Renewable_Fuel_Declaration - C-100 - Jan to Mar 2025 - Acme Ltd.pdf";
                "out/Renewable_Fuel_Declaration - C-102 - Apr to Jun 2025 - Gamma  Co.xlsm"];
             error_files :=
               [(3, "'NoneType' object has no attribute 'split'")];
             temp_files_to_cleanup :=
               ["out/temp_2_Renewable_Fuel_Declaration - Acme Ltd.xlsm"] |}.
Proof. repeat split; vm_compute; reflexivity. Qed.

Lemma temp_registered_example :
  let run := create_row world_ok 2 "out" true false (Some []) [] in
  let temp := "out/temp_2_Renewable_Fuel_Declaration - Acme Ltd.xlsm" in
  snd run
  = Ok (Some "out/Renewable_Fuel_Declaration - C-100 - Jan to Mar 2025 - Acme Ltd.pdf",
        Some [temp])
  /\ Some [temp]
     = Some (if negb false && existsb export_returned (fst run)
                && existsb close_returned (fst run)
             then [temp] else []).
Proof.
  intros run temp.
  assert (H : create_row world_ok 2 "out" true false (Some []) []
              = (([] ++ fst run)%list,
                 Ok (Some "out/Renewable_Fuel_Declaration - C-100 - Jan to Mar 2025 - Acme Ltd.pdf",
                     Some [temp])))
    by (vm_compute; reflexivity).
  split; [vm_compute; reflexivity|].
  exact (temp_registered_iff sample_repr sample_round "04/11/2026" world_ok
           sample_sep sample_sheet "template.xlsm" 2 "out" true false []
           [] (fst run) _ _ H).
Defined.

Lemma export_succeeds_but_temp_not_registered :
  let kept := create_row world_ok 2 "out" true true (Some []) [] in
  let busy := create_row world_close_fails 2 "out" true false (Some []) [] in
  (existsb export_returned (fst kept) = true
   /\ snd kept
      = Ok (Some "out/Renewable_Fuel_Declaration - C-100 - Jan to Mar 2025 - Acme Ltd.pdf",
            Some []))
  /\ (existsb export_returned (fst busy) = true
      /\ snd busy
         = Ok (Some "out/Renewable_Fuel_Declaration - C-100 - Jan to Mar 2025 - Acme Ltd.xlsm",
               Some [])).
Proof. repeat split; vm_compute; reflexivity. Qed.

Lemma no_document_example :
  let run := create_row world_ok 2 "out" false false (Some []) [] in
  let excel :=
    "out/Renewable_Fuel_Declaration - C-100 - Jan to Mar 2025 - Acme Ltd.xlsm" in
  snd run = Ok (Some excel, Some [])
  /\ existsb is_export (fst run) = false
  /\ flat_map save_target (fst run) = []
  /\ files_written (fst run)
     = ["out/temp_2_Renewable_Fuel_Declaration - Acme Ltd.xlsm"]
  /\ ~ In excel (files_written (fst run))
  /\ existsb is_remove (fst run) = false.
Proof.
  intros run excel.
  assert (H : create_row world_ok 2 "out" false false (Some []) []
              = (([] ++ fst run)%list, Ok (Some excel, Some [])))
    by (vm_compute; reflexivity).
  split; [vm_compute; reflexivity|].
  destruct (no_document_when_both_flags_off sample_repr sample_round
              sample_parse "04/11/2026" world_ok files_stay sample_sep
              sample_sheet "template.xlsm" 2 "out" (Some []) (Some []) []
              (fst run) excel H)
    as (_ & _ & E1 & E2 & E3 & E4 & E5 & _ & _).
  repeat split; assumption.
Defined.

(** *** The cleaner *)

Example file_gone_after_two_attempts :
  let p := "out/temp_2_Renewable_Fuel_Declaration - Acme Ltd.xlsm" in
  let e := Exn OSError "file is in use" in
  cleanup_temp_files world_locked files_vanish_after_2s (Some [p]) []
  = ([Printed (Attempting 1);
      Exists p true; Called (Remove p) (Some e);
      Printed (AttemptFailed 1 p "file is in use"); Slept 1;
      Exists p true; Called (Remove p) (Some e);
      Printed (AttemptFailed 2 p "file is in use"); Slept 1;
      Exists p false],
     Ok tt).
Proof. vm_compute. reflexivity. Qed.

Example file_locked_for_good :
  let p := "out/temp_2_Renewable_Fuel_Declaration - Acme Ltd.xlsm" in
  let e := Exn OSError "file is in use" in
  cleanup_temp_files world_locked files_stay (Some [p]) []
  = ((Printed (Attempting 1)
      :: failed_attempts p 1 [e; e; e; e; e]
      ++ [Printed (CouldNotDelete p)])%list,
     Ok tt).
Proof. vm_compute. reflexivity. Qed.

Example file_already_gone :
  cleanup_temp_files world_ok (fun _ _ => false) (Some ["out/temp.xlsm"]) []
  = ([Printed (Attempting 1); Exists "out/temp.xlsm" false], Ok tt).
Proof. reflexivity. Qed.

(** *** The batch *)

Lemma batch_survives_row_failures_example :
  let scan := [Called OpenSource None; Called CloseSource None] in
  exists evs cl rep,
    process_all_supply_blend_rows sample_repr sample_round sample_parse
      "04/11/2026" world_ok files_stay sample_sep sample_sheet
      "template.xlsm" "out" true false []
    = ((scan ++ evs ++ cl)%list, Ok rep)
    /\ rows_in_order sample_repr sample_round "04/11/2026" world_ok
         sample_sep sample_sheet "template.xlsm" "out" true false
         empty_report scan [2; 3; 4] (scan ++ evs)%list rep
    /\ flat_map row_mark evs = [2; 3; 4]
    /\ flat_map row_error evs = error_files rep
    /\ List.length (List.filter is_cleaner_start (evs ++ cl)) = 1%nat.
Proof.
  intros scan.
  pose proof (batch_survives_row_failures sample_repr sample_round
                sample_parse "04/11/2026" world_ok files_stay sample_sep
                sample_sheet "template.xlsm" "out" true false [2; 3; 4] [])
    as H.
  cbv zeta in H.
  destruct H as (evs & cl & rep & _ & _ & Hall & Hord & Hm & He & _ & _
                 & Hone & _).
  - reflexivity.
  - vm_compute. reflexivity.
  - reflexivity.
  - exists evs, cl, rep.
    split; [exact Hall|]. split; [exact Hord|]. split; [exact Hm|].
    split; [exact He|exact Hone].
Defined.

(** *** Further examples *)

Lemma unknown_month_example :
  process_declaration_period (VStr "Xyz to Mar 2025")
  = Ok (VStr "Xyz to Mar 2025").
Proof.
  apply (unknown_month_leaves_period_unchanged "Xyz to Mar 2025" "Xyz"
           "Mar 2025" "Mar" [] ["2025"]);
    [reflexivity | reflexivity | left; reflexivity].
Defined.

Lemma nameless_row_example :
  let read :=
    [Printed (ProcessingRow 7);
     Called OpenSource None; Called CloseSource None] in
  create_row world_ok 7 "out" true false (Some []) []
  = (read, Ok (None, Some []))
  /\ process_row sample_repr sample_round "04/11/2026" world_ok sample_sep
       sample_sheet "template.xlsm" "out" true false empty_report 7 []
     = ((read ++ [Printed (RowSkipped 7)])%list, Ok empty_report).
Proof.
  intros read.
  assert (H : create_row world_ok 7 "out" true false (Some []) []
              = (([] ++ read)%list, Ok (None, Some [])))
    by reflexivity.
  split; [exact H|].
  destruct (nameless_row_is_skipped sample_repr sample_round "04/11/2026"
              world_ok sample_sep sample_sheet "template.xlsm" 7 "out" true
              false (Some []) (Some []) empty_report [] read None
              eq_refl H)
    as (_ & _ & _ & Hrow).
  exact (Hrow eq_refl).
Defined.

Lemma row_without_period_example :
  let e := Exn AttributeError "'NoneType' object has no attribute 'split'" in
  let first := [Printed (ProcessingRow 3)] in
  let read :=
    [Printed (ProcessingRow 3);
     Called OpenSource None; Called CloseSource None] in
  let temp := temp_excel_file sample_repr sample_sep "out" 3 (row_of 3) in
  (world_ok first OpenSource = Some e
   /\ read = [Printed (ProcessingRow 3); Called OpenSource (Some e)])
  \/ (world_ok first OpenSource = None
      /\ world_ok [Printed (ProcessingRow 3); Called OpenSource None]
           CloseSource = Some e
      /\ read = [Printed (ProcessingRow 3); Called OpenSource None;
                 Called CloseSource (Some e)])
  \/ (truthy (customer_name (row_of 3)) = true
      /\ process_declaration_period (declaration_period (row_of 3)) = Raise e
      /\ exn_cls e = AttributeError
      /\ read = read)
  \/ (truthy (customer_name (row_of 3)) = true
      /\ world_ok read (CopyTemplate "template.xlsm" temp) = Some e
      /\ read = (read ++ [Called (CopyTemplate "template.xlsm" temp)
                            (Some e)])%list).
Proof.
  intros e first read temp.
  apply (row_raises_only_before_the_try sample_repr sample_round
           "04/11/2026" world_ok sample_sep sample_sheet "template.xlsm" 3
           "out" true false (Some []) [] read e).
  reflexivity.
Defined.

Lemma returned_path_example :
  let run := create_row world_ok 2 "out" true false (Some []) [] in
  "out/Renewable_Fuel_Declaration - C-100 - Jan to Mar 2025 - Acme Ltd.pdf"
  = if existsb export_returned (fst run) && existsb close_returned (fst run)
    then pdf_output_file sample_repr sample_sep "out" (row_of 2)
    else excel_output_file sample_repr sample_sep "out" (row_of 2).
Proof.
  intros run.
  assert (H : create_row world_ok 2 "out" true false (Some []) []
              = (([] ++ fst run)%list,
                 Ok (Some "out/Renewable_Fuel_Declaration - C-100 - Jan to Mar 2025 - Acme Ltd.pdf",
                     Some ["out/temp_2_Renewable_Fuel_Declaration - Acme Ltd.xlsm"])))
    by (vm_compute; reflexivity).
  exact (returned_path_follows_export_and_close sample_repr sample_round
           "04/11/2026" world_ok sample_sep sample_sheet "template.xlsm" 2
           "out" true false (Some []) _ [] (fst run) _ H).
Defined.

Lemma returned_pdf_example :
  let run := create_row world_ok 2 "out" true true (Some []) [] in
  In "out/Renewable_Fuel_Declaration - C-100 - Jan to Mar 2025 - Acme Ltd.pdf"
    (files_written (fst run)).
Proof.
  intros run.
  assert (H : create_row world_ok 2 "out" true true (Some []) []
              = (([] ++ fst run)%list,
                 Ok (Some (pdf_output_file sample_repr sample_sep "out"
                             (row_of 2)),
                     Some [])))
    by (vm_compute; reflexivity).
  exact (returned_pdf_was_written sample_repr sample_round "04/11/2026"
           world_ok sample_sep sample_sheet "template.xlsm" 2 "out" true true
           (Some []) (Some []) [] (fst run) H).
Defined.

Lemma keep_excel_example :
  let run := create_row world_no_pdf 2 "out" true true (Some []) [] in
  let excel :=
    "out/Renewable_Fuel_Declaration - C-100 - Jan to Mar 2025 - Acme Ltd.xlsm" in
  existsb close_returned (fst run) = true
  /\ flat_map save_target (fst run) = [excel]
  /\ In excel (files_written (fst run))
  /\ exists p, snd run = Ok (Some p, Some []).
Proof.
  intros run excel.
  assert (Hx : existsb close_returned (fst run) = true)
    by (vm_compute; reflexivity).
  assert (H : create_row world_no_pdf 2 "out" true true (Some []) []
              = (([] ++ fst run)%list, snd run))
    by (vm_compute; reflexivity).
  split; [exact Hx|].
  exact (keep_excel_saves_editable_copy sample_repr sample_round "04/11/2026"
           world_no_pdf sample_sep sample_sheet "template.xlsm" 2 "out" true
           (Some []) [] (fst run) (snd run) H Hx).
Defined.

Lemma row_touches_only_its_own_files_example :
  let run := create_row world_ok 2 "out" true true (Some []) [] in
  let temp := "out/temp_2_Renewable_Fuel_Declaration - Acme Ltd.xlsm" in
  Forall (fun b => b = temp) (flat_map book_of (fst run))
  /\ Forall (fun f =>
               f = temp
               \/ f = "out/Renewable_Fuel_Declaration - C-100 - Jan to Mar 2025 - Acme Ltd.pdf"
               \/ f = "out/Renewable_Fuel_Declaration - C-100 - Jan to Mar 2025 - Acme Ltd.xlsm")
       (files_written (fst run))
  /\ existsb is_remove (fst run) = false
  /\ (flat_map source_call (fst run) = [OpenSource]
      \/ flat_map source_call (fst run) = [OpenSource; CloseSource]).
Proof.
  intros run temp.
  assert (H : create_row world_ok 2 "out" true true (Some []) []
              = (([] ++ fst run)%list, snd run))
    by (vm_compute; reflexivity).
  exact (row_touches_only_its_own_files sample_repr sample_round "04/11/2026"
           world_ok sample_sep sample_sheet "template.xlsm" 2 "out" true true
           (Some []) [] (fst run) (snd run) H).
Defined.

Lemma fill_writes_the_fifteen_cells_example :
  let book := "out/temp_2_Renewable_Fuel_Declaration - Acme Ltd.xlsm" in
  let tdp := VStr "3 months - Jan to Mar 2025" in
  exists kg,
    rounded_kg sample_repr sample_round (volume_of_fuel_supplied (row_of 2))
    = Ok kg
    /\ List.length
         (fst (fill_template sample_repr sample_round world_ok book (row_of 2)
                 tdp [])) = 16%nat.
Proof.
  intros book tdp.
  destruct (fill_writes_the_fifteen_cells sample_repr sample_round world_ok
              book (row_of 2) tdp []
              (fst (fill_template sample_repr sample_round world_ok book
                      (row_of 2) tdp [])))
    as [kg [Hkg _]].
  - vm_compute. reflexivity.
  - exists kg. split; [exact Hkg|]. vm_compute. reflexivity.
Defined.

Lemma temp_path_tells_the_row_example :
  temp_excel_file sample_repr sample_sep "out" 2 (row_of 2)
  <> temp_excel_file sample_repr sample_sep "out" 3 (row_of 2).
Proof.
  apply (temp_path_tells_the_row sample_repr sample_sep "out" 2 3 (row_of 2)
           (row_of 2)).
  lia.
Defined.

Lemma scan_returns_the_eligible_rows_example :
  [2; 3; 4]
  = List.filter (eligible sample_parse sample_sheet)
      (py_range 2 (ws_end_down_A1 sample_sheet + 1))
  /\ (forall r, In r [2; 3; 4]
                <-> 2 <= r <= ws_end_down_A1 sample_sheet
                    /\ eligible sample_parse sample_sheet r = true)
  /\ StronglySorted Z.lt [2; 3; 4]
  /\ (ws_end_down_A1 sample_sheet < 2 -> [2; 3; 4] = []).
Proof.
  apply (scan_returns_the_eligible_rows sample_parse sample_sheet [2; 3; 4]).
  vm_compute. reflexivity.
Defined.

Lemma unlocked_files_example :
  cleanup_temp_files world_ok files_stay (Some ["out/a.xlsm"; "out/b.xlsm"])
    []
  = ([] ++ Printed (Attempting 2)
        :: flat_map removal ["out/a.xlsm"; "out/b.xlsm"],
     Ok tt)%list.
Proof.
  apply (unlocked_files_are_removed_at_once world_ok files_stay
           ["out/a.xlsm"; "out/b.xlsm"] []);
    [reflexivity | reflexivity | discriminate].
Defined.

Lemma cleaner_gets_each_temp_once_example :
  let run :=
    process_all_supply_blend_rows sample_repr sample_round sample_parse
      "04/11/2026" world_ok files_stay sample_sep sample_sheet
      "template.xlsm" "out" true false [] in
  let rep :=
    {| created_files :=
         ["out/Renewable_Fuel_Declaration - C-100 - Jan to Mar 2025 - Acme Ltd.pdf";
          "out/Renewable_Fuel_Declaration - C-102 - Apr to Jun 2025 - Gamma  Co.xlsm"];
       error_files := [(3, "'NoneType' object has no attribute 'split'")];
       temp_files_to_cleanup :=
         ["out/temp_2_Renewable_Fuel_Declaration - Acme Ltd.xlsm"] |} in
  snd run = Ok rep /\ NoDup (temp_files_to_cleanup rep).
Proof.
  intros run rep.
  assert (H : process_all_supply_blend_rows sample_repr sample_round
                sample_parse "04/11/2026" world_ok files_stay sample_sep
                sample_sheet "template.xlsm" "out" true false []
              = (fst run, Ok rep))
    by (vm_compute; reflexivity).
  split; [vm_compute; reflexivity|].
  exact (proj1 (cleaner_gets_each_temp_once sample_repr sample_round
                  sample_parse "04/11/2026" world_ok files_stay sample_sep
                  sample_sheet "template.xlsm" "out" true false [] (fst run)
                  rep H)).
Defined.
